(** * Fluent setters over validated record types

    A shallow embedding of
    - [src/fluent_builder/fluent_setter.py]: the decorator;
    - [src/fluent_builder/generic_fluent_builder.py]: the decorator again and
      [FluentBaseModel.generate_fluent_setters];
    - [src/tweet_v1.py]: the [User] and [Tweet] schemas with their length
      validators;
    together with the properties the specification states about them.

    Instances live in a store indexed by addresses, so that "returns the same
    instance" is equality of addresses.  Classes live in a class table that
    [generate_fluent_setters] updates in place. *)

From stdpp Require Import gmap strings list fin_maps.
From Stdlib Require Import Ascii String.

Local Open Scope string_scope.

(* ===================================================================== *)
(** ** Python strings *)
(* ===================================================================== *)

Module PyStr.

(** [len(v)]: a [string] is read as the sequence of its characters. *)
Definition len (v : string) : nat := String.length v.

(** [v.replace(old, new)] for one-character [old] and [new], the only form
    the validators use ([v.replace('\n', ' ')]): each occurrence of [old]
    becomes [new], every other character is kept. *)
Fixpoint replace (old new : ascii) (v : string) : string :=
  match v with
  | EmptyString => EmptyString
  | String c rest =>
      String (if Ascii.eqb c old then new else c) (replace old new rest)
  end.

(** [sep.join(parts)]. *)
Fixpoint join (sep : string) (parts : list string) : string :=
  match parts with
  | [] => ""
  | [p] => p
  | p :: rest => p ++ sep ++ join sep rest
  end.

(** ['c' in v]. *)
Fixpoint contains (c : ascii) (v : string) : bool :=
  match v with
  | EmptyString => false
  | String d rest => Ascii.eqb d c || contains c rest
  end.

(** [c * n], a string of [n] copies of one character. *)
Fixpoint repeat (c : ascii) (n : nat) : string :=
  match n with
  | O => EmptyString
  | S k => String c (repeat c k)
  end.

Definition newline : ascii := "010"%char.
Definition space : ascii := " "%char.

End PyStr.

(* ===================================================================== *)
(** ** Values, exceptions, outcomes *)
(* ===================================================================== *)

(** An address names one object of the store. *)
Definition addr := nat.

Inductive value :=
  | VNone
  | VBool (b : bool)
  | VInt (n : Z)
  | VStr (s : string)
  | VRef (a : addr).

Inductive exn :=
  | ValidationError (msg : string)
  | ValueError (msg : string)
  | AttributeError (msg : string)
  | TypeError (msg : string)
  | SystemError (msg : string).

(** Outcome of a call: a returned value or a raised exception. *)
Inductive result (A : Type) :=
  | Ok (a : A)
  | Raise (e : exn).
Arguments Ok {A} a.
Arguments Raise {A} e.

Definition is_validation_error {A} (r : result A) : Prop :=
  match r with
  | Raise (ValidationError _) => True
  | _ => False
  end.

Definition is_type_error {A} (r : result A) : Prop :=
  match r with
  | Raise (TypeError _) => True
  | _ => False
  end.

(** [ValidationError(msg)], with [ValidationError] as imported from pydantic
    on line 3 of [tweet_v1.py]: the class has no constructor that takes a
    message, so the call does not return an exception object, it raises
    [TypeError].  The text of that [TypeError] is the library's. *)
Definition new_ValidationError (msg : string) : result exn :=
  Raise (TypeError "No constructor defined").

(** [raise e], for an expression [e]: what [e] evaluates to is raised; when
    evaluating [e] raises, that exception goes up instead. *)
Definition raise_expr {A} (e : result exn) : result A :=
  match e with
  | Ok x => Raise x
  | Raise x => Raise x
  end.

(** Python truthiness, for [x or y]. *)
Definition truthy (v : value) : bool :=
  match v with
  | VNone => false
  | VBool b => b
  | VInt n => negb (n =? 0)%Z
  | VStr s => negb (String.eqb s "")
  | VRef _ => true
  end.

Definition py_or (x y : value) : value := if truthy x then x else y.

(* ===================================================================== *)
(** ** The validators of [tweet_v1.py] *)
(* ===================================================================== *)

Module TweetV1.

(** [User.description_replace], lines 14-18. *)
Definition description_replace (v : string) : result string :=
  if (80 <? PyStr.len v)%nat
  then raise_expr (new_ValidationError "description should be less than 80 characters")
  else Ok (PyStr.replace PyStr.newline PyStr.space v).

(** [Tweet.text_replace], lines 45-49. *)
Definition text_replace (v : string) : result string :=
  if (140 <? PyStr.len v)%nat
  then raise_expr (new_ValidationError "text should be less than 140 characters")
  else Ok (PyStr.replace PyStr.newline PyStr.space v).

End TweetV1.

(* ===================================================================== *)
(** ** The store of instances *)
(* ===================================================================== *)

(** A model instance: the name of its class and its attribute dictionary. *)
Record instance := Instance {
  inst_class : string;
  inst_dict : gmap string value
}.

Abbreviation heap := (gmap addr instance).

(** Computations over the store that may raise.  A raised exception keeps the
    store as it was at the point of the raise: nothing is rolled back. *)
Definition M (A : Type) : Type := heap -> result A * heap.

Definition ret {A} (a : A) : M A := fun h => (Ok a, h).
Definition raise {A} (e : exn) : M A := fun h => (Raise e, h).
Definition bind {A B} (m : M A) (k : A -> M B) : M B :=
  fun h =>
    match m h with
    | (Ok a, h') => k a h'
    | (Raise e, h') => (Raise e, h')
    end.

Notation "'let*' x ':=' m 'in' k" := (bind m (fun x => k))
  (at level 10, x name, m at level 100, k at level 200).

(** Reading attribute [name] of the object at [self]. *)
Definition getattr (h : heap) (self : addr) (name : string) : option value :=
  match h !! self with
  | Some o => inst_dict o !! name
  | None => None
  end.

(** The raw store, [object.__setattr__]: one entry of one dictionary. *)
Definition store_attr (self : addr) (name : string) (v : value) (h : heap) : heap :=
  match h !! self with
  | Some o => <[self := Instance (inst_class o) (<[name := v]> (inst_dict o))]> h
  | None => h
  end.

(* ===================================================================== *)
(** ** The record capability the setters rely on *)
(* ===================================================================== *)

(** Modelled from the spec: the record capability behind
    [setattr(self, attr_name, value)], which is the external model library
    ([pydantic.BaseModel]) and not part of the sources.  The specification
    gives its surface: enumeration of the declared field names, attribute get
    and set, and optional per-field validation invoked on set, which signals
    failure by an exception.  A record type is described by its [schema]:
    - [sch_fields]: the declared field names, inherited ones included;
    - [sch_validators]: the per-field validation hook, where one is declared;
    - [sch_validate_assignment]: whether assignment runs the hook, which a
      type has to ask for in its configuration ([validate_assignment]).
    A class without a schema is a plain object, whose attributes are set
    without any check. *)
Record schema := Schema {
  sch_fields : list string;
  sch_validators : gmap string (value -> result value);
  sch_validate_assignment : bool
}.

Abbreviation schemas := (gmap string schema).

(** Modelled from the spec: the value an assignment to field [name] stores,
    or the error it raises.  The hook runs only where the type validates on
    assignment. *)
Definition validate_field (sc : schema) (name : string) (v : value) : result value :=
  if sch_validate_assignment sc then
    match sch_validators sc !! name with
    | Some check => check v
    | None => Ok v
    end
  else Ok v.

(** Modelled from the spec: what assigning [v] to attribute [name] of an
    instance of class [cls] stores, or the error the assignment raises.  A
    name that is not a field is refused, a field goes through
    [validate_field]. *)
Definition assignment (Σ : schemas) (cls : string) (name : string) (v : value) : result value :=
  match Σ !! cls with
  | None => Ok v
  | Some sc =>
      if bool_decide (name ∈ sch_fields sc) then validate_field sc name v
      else Raise (ValueError "object has no field")
  end.

(** [setattr(self, name, v)] on an instance; returns [None].  The value is
    validated before anything is stored. *)
Definition setattr (Σ : schemas) (self : addr) (name : string) (v : value) : M value :=
  fun h =>
    match h !! self with
    | None => (Raise (SystemError "no such object"), h)
    | Some o =>
        match assignment Σ (inst_class o) name v with
        | Ok v' => (Ok VNone, store_attr self name v' h)
        | Raise e => (Raise e, h)
        end
    end.

(** A validator declared on a [str] field with [pre=False]: it runs after the
    value was checked to be a string. *)
Definition str_validator (check : string -> result string) (v : value) : result value :=
  match v with
  | VStr s =>
      match check s with
      | Ok s' => Ok (VStr s')
      | Raise e => Raise e
      end
  | _ => Raise (ValidationError "str type expected")
  end.

(* ===================================================================== *)
(** ** [fluent_setter.py] *)
(* ===================================================================== *)

(** A bound method of one argument: [self], the argument, the store. *)
Definition method : Type := addr -> value -> M value.

Module FluentSetter.

(** [fluent_setter(attr_name)], lines 8-19: the decorator factory.  The
    decorator takes the method it wraps and returns [wrapper];
    [functools.wraps] copies the name and the docstring of the wrapped method
    onto the wrapper and has no part in the call. *)
Definition fluent_setter (Σ : schemas) (attr_name : string) : method -> method :=
  fun (method : method) =>
    fun (self : addr) (value : value) =>
      let* _ := setattr Σ self attr_name value in
      ret (VRef self).

End FluentSetter.

(* ===================================================================== *)
(** ** [generic_fluent_builder.py] *)
(* ===================================================================== *)

(** What a class namespace holds. *)
Inductive attr :=
  | Method (m : method)
  | ClassAttr (v : value).

(** A class object: [__mro__] without the class itself, the class's own
    [__annotations__] (names in declaration order with their declared types,
    kept as text), and its own [__dict__]. *)
Record pyclass := PyClass {
  cls_mro : list string;
  cls_annotations : list (string * string);
  cls_dict : gmap string attr
}.

Abbreviation classtable := (gmap string pyclass).

(** Class-level computations: they read and update the class table. *)
Definition C (A : Type) : Type := classtable -> result A * classtable.

Definition cret {A} (a : A) : C A := fun ct => (Ok a, ct).
Definition cbind {A B} (m : C A) (k : A -> C B) : C B :=
  fun ct =>
    match m ct with
    | (Ok a, ct') => k a ct'
    | (Raise e, ct') => (Raise e, ct')
    end.

(** Attribute lookup along a list of classes: the first namespace that has
    the name wins. *)
Fixpoint find_attr (ct : classtable) (classes : list string) (name : string) : option attr :=
  match classes with
  | [] => None
  | k :: rest =>
      match ct !! k with
      | Some cl =>
          match cls_dict cl !! name with
          | Some a => Some a
          | None => find_attr ct rest name
          end
      | None => find_attr ct rest name
      end
  end.

(** [getattr(cls, name)]: the class itself, then its ancestors in MRO order. *)
Definition class_getattr (ct : classtable) (c : string) (name : string) : option attr :=
  match ct !! c with
  | Some cl => find_attr ct (c :: cls_mro cl) name
  | None => None
  end.

(** [hasattr(cls, name)]. *)
Definition hasattr (ct : classtable) (c : string) (name : string) : bool :=
  match class_getattr ct c name with
  | Some _ => true
  | None => false
  end.

Definition with_dict (cl : pyclass) (d : gmap string attr) : pyclass :=
  PyClass (cls_mro cl) (cls_annotations cl) d.

(** [setattr(cls, name, a)]: an entry of the class's own namespace. *)
Definition type_setattr (c : string) (name : string) (a : attr) : C unit :=
  fun ct =>
    match ct !! c with
    | Some cl => (Ok tt, <[c := with_dict cl (<[name := a]> (cls_dict cl))]> ct)
    | None => (Raise (SystemError "no such class"), ct)
    end.

(** [for x in xs: body(x)]. *)
Fixpoint for_each {A} (xs : list A) (body : A -> C unit) : C unit :=
  match xs with
  | [] => cret tt
  | x :: rest => cbind (body x) (fun _ => for_each rest body)
  end.

Module GenericFluentBuilder.

(** [fluent_setter(attr_name)], lines 12-23: the same decorator factory. *)
Definition fluent_setter (Σ : schemas) (attr_name : string) : method -> method :=
  fun (method : method) =>
    fun (self : addr) (value : value) =>
      let* _ := setattr Σ self attr_name value in
      ret (VRef self).

(** Line 36: [lambda self, value, field=field: setattr(self, field, value) or self]. *)
Definition setter_lambda (Σ : schemas) (field : string) : method :=
  fun (self : addr) (value : value) =>
    let* r := setattr Σ self field value in
    ret (py_or r (VRef self)).

(** Line 33: ["_".join(["with", field])]. *)
Definition method_name (field : string) : string := PyStr.join "_" ["with"; field].

(** Lines 33-38: the body of the loop, for one [field]. *)
Definition generate_one (Σ : schemas) (c : string) (field : string) : C unit :=
  fun ct =>
    if negb (hasattr ct c (method_name field)) then
      let method := fluent_setter Σ field (setter_lambda Σ field) in
      type_setattr c (method_name field) (Method method) ct
    else (Ok tt, ct).

(** [FluentBaseModel.generate_fluent_setters], lines 29-38, on the class
    named [c].  The loop runs over the keys of [cls.__annotations__], the
    annotations of [c] itself, read once before the first iteration. *)
Definition generate_fluent_setters (Σ : schemas) (c : string) : C value :=
  fun ct =>
    match ct !! c with
    | None => (Raise (SystemError "no such class"), ct)
    | Some cl =>
        cbind (for_each (cls_annotations cl).*1 (generate_one Σ c))
              (fun _ => cret VNone) ct
    end.

End GenericFluentBuilder.

(** [m.name(v)]: the instance's own dictionary shadows the class, then the
    class and its ancestors are searched; a function found there is called
    with [m] as [self]. *)
Definition call_method (ct : classtable) (self : addr) (name : string) (v : value) : M value :=
  fun h =>
    match h !! self with
    | None => (Raise (SystemError "no such object"), h)
    | Some o =>
        match inst_dict o !! name with
        | Some _ => (Raise (TypeError "object is not callable"), h)
        | None =>
            match class_getattr ct (inst_class o) name with
            | Some (Method m) => m self v h
            | Some (ClassAttr _) => (Raise (TypeError "object is not callable"), h)
            | None => (Raise (AttributeError name), h)
            end
        end
    end.

(** A chain [m.n1(v1).n2(v2)...]: each call is made on what the previous one
    returned; the first exception ends the chain. *)
Fixpoint chain (ct : classtable) (target : value) (calls : list (string * value)) : M value :=
  match calls with
  | [] => ret target
  | (name, v) :: rest =>
      match target with
      | VRef a => let* r := call_method ct a name v in chain ct r rest
      | _ => raise (AttributeError name)
      end
  end.

(* ===================================================================== *)
(** ** The schemas of [tweet_v1.py] *)
(* ===================================================================== *)

Module TweetModels.

(** [class User(BaseModel)], lines 6-18. *)
Definition User_annotations : list (string * string) :=
  [("id", "int"); ("name", "str"); ("screen_name", "str");
   ("location", "str"); ("url", "str"); ("description", "str")].

(** [class Tweet(BaseModel)], lines 37-49. *)
Definition Tweet_annotations : list (string * string) :=
  [("created_at", "str"); ("id_str", "str"); ("text", "str");
   ("user", "User"); ("place", "Dict[str, Any]"); ("entities", "Entities")].

(** Neither class body has a configuration: validation on assignment is
    not asked for. *)
Definition User_schema : schema :=
  Schema User_annotations.*1
         {[ "description" := str_validator TweetV1.description_replace ]}
         false.

Definition Tweet_schema : schema :=
  Schema Tweet_annotations.*1
         {[ "text" := str_validator TweetV1.text_replace ]}
         false.

(** The same declaration with [validate_assignment = True] in its
    configuration. *)
Definition validating (sc : schema) : schema :=
  Schema (sch_fields sc) (sch_validators sc) true.

End TweetModels.

(** What both validators return for an input they accept. *)
Definition normalized (v : string) : string :=
  PyStr.replace PyStr.newline PyStr.space v.

(** ["a\nb"]. *)
Definition two_lines : string := "a" ++ String PyStr.newline "b".

(** The type of [cls] stores an assigned value as it is: it has no schema,
    does not validate on assignment, or has no validator for [name]. *)
Definition unvalidated (Σ : schemas) (cls : string) (name : string) : Prop :=
  match Σ !! cls with
  | None => True
  | Some sc => sch_validate_assignment sc = false \/ sch_validators sc !! name = None
  end.

(** The method line 35 builds for [field]. *)
Definition generated_setter (Σ : schemas) (field : string) : attr :=
  Method (GenericFluentBuilder.fluent_setter Σ field
            (GenericFluentBuilder.setter_lambda Σ field)).

(** The method a run over [fields] builds under [name], if any: that of the
    first field whose method name is [name]. *)
Definition synthesized (Σ : schemas) (fields : list string) (name : string) : option attr :=
  generated_setter Σ
    <$> List.find (fun f => String.eqb (GenericFluentBuilder.method_name f) name) fields.

(** The fields of a run that have no method yet. *)
Definition missing (ct : classtable) (c : string) (fields : list string) : list string :=
  List.filter (fun f => negb (hasattr ct c (GenericFluentBuilder.method_name f))) fields.

(** The class table after [generate_fluent_setters]. *)
Definition generated (Σ : schemas) (c : string) (ct : classtable) : classtable :=
  (GenericFluentBuilder.generate_fluent_setters Σ c ct).2.

(** The own namespace of class [c]. *)
Definition own_dict (ct : classtable) (c : string) : gmap string attr :=
  match ct !! c with
  | Some cl => cls_dict cl
  | None => ∅
  end.

(** Reading back exactly the argument after a successful setter call. *)
Definition assignment_is_exact : Prop :=
  forall (Σ : schemas) f body self v (h : heap) r h',
    FluentSetter.fluent_setter Σ f body self v h = (Ok r, h') ->
    getattr h' self f = Some v.

(** Rejection of a 141-character text by the setter of any record type whose
    [text] field carries the 140-character validator. *)
Definition overlong_text_always_rejected : Prop :=
  forall (Σ : schemas) sc body self o s (h : heap),
    h !! self = Some o ->
    Σ !! inst_class o = Some sc ->
    "text" ∈ sch_fields sc ->
    sch_validators sc !! "text" = Some (str_validator TweetV1.text_replace) ->
    PyStr.len s = 141 ->
    is_validation_error (FluentSetter.fluent_setter Σ "text" body self (VStr s) h).1 /\
    (FluentSetter.fluent_setter Σ "text" body self (VStr s) h).2 = h.

(* ===================================================================== *)
(** ** Sample programs *)
(* ===================================================================== *)

Module Sample.

(** [Tweet] as declared, and declared with validation on assignment. *)
Definition declared : schemas := {[ "Tweet" := TweetModels.Tweet_schema ]}.
Definition strict : schemas :=
  {[ "Tweet" := TweetModels.validating TweetModels.Tweet_schema ]}.

(** A decorated method whose own body is [...]. *)
Definition stub : method := fun _ _ => ret VNone.

(** A hand-written [with_text] that stores a fixed marker instead. *)
Definition shout (Σ : schemas) : method :=
  fun self _ => let* _ := setattr Σ self "text" (VStr "!") in ret (VRef self).

Definition bases : list string := ["FluentBaseModel"; "BaseModel"; "object"].

(** [Tweet] with a decorated [with_text] and nothing else. *)
Definition decorated (Σ : schemas) : classtable :=
  {[ "Tweet" := PyClass bases TweetModels.Tweet_annotations
                  {[ "with_text" := Method (FluentSetter.fluent_setter Σ "text" stub) ]} ]}.

(** [Tweet] with a hand-written [with_text], before generation. *)
Definition handwritten (Σ : schemas) : classtable :=
  {[ "Tweet" := PyClass bases TweetModels.Tweet_annotations
                  {[ "with_text" := Method (shout Σ) ]} ]}.

(** [Tweet] before generation, with no method of its own and the name
    [with_id_str] taken by a class attribute. *)
Definition bare : classtable :=
  {[ "Tweet" := PyClass bases TweetModels.Tweet_annotations
                  {[ "with_id_str" := ClassAttr VNone ]} ]}.

(** A model without fields. *)
Definition fieldless : classtable := {[ "Empty" := PyClass bases [] ∅ ]}.

(** [class Parent] declares [a]; [class Child(Parent)] declares [b]. *)
Definition Parent : pyclass := PyClass bases [("a", "int")] ∅.
Definition Child : pyclass := PyClass ("Parent" :: bases) [("b", "str")] ∅.
Definition family : classtable := {[ "Parent" := Parent; "Child" := Child ]}.

(** [Tweet] as a class of the table. *)
Definition Tweet (d : gmap string attr) : pyclass :=
  PyClass bases TweetModels.Tweet_annotations d.

(** One tweet in the store. *)
Definition tweet : instance :=
  Instance "Tweet" {[ "id_str" := VStr "1"; "text" := VStr "hello" ]}.
Definition store : heap := {[ 0 := tweet ]}.

(** 141 characters. *)
Definition overlong : string := PyStr.repeat "x"%char 141.

(** [User] declared with validation on assignment, and one user in a store
    of its own. *)
Definition strict_users : schemas :=
  {[ "User" := TweetModels.validating TweetModels.User_schema ]}.
Definition user : instance := Instance "User" {[ "description" := VStr "bio" ]}.
Definition users : heap := {[ 1 := user ]}.

End Sample.

(** A call [(name, v)] on instances of class [cls] goes to a fluent setter:
    the class has under [name] the wrapper of some field. *)
Definition fluent_call (Σ : schemas) (ct : classtable) (cls : string)
    (call : string * value) : Prop :=
  exists f body,
    class_getattr ct cls call.1
    = Some (Method (GenericFluentBuilder.fluent_setter Σ f body)).

(* ===================================================================== *)
(** * Properties *)
(* ===================================================================== *)

(** ** Strings *)

Section PyStrFacts.

Import PyStr.

Lemma replace_len old new v : len (replace old new v) = len v.
Proof. unfold len. induction v as [|c v IH]; simpl; [reflexivity | now f_equal]. Qed.

Lemma replace_get old new v i :
  String.get i (replace old new v)
  = (fun c => if Ascii.eqb c old then new else c) <$> String.get i v.
Proof.
  revert i. induction v as [|c v IH]; intros i; simpl; [reflexivity|].
  destruct i as [|i]; [reflexivity | apply IH].
Qed.

Lemma replace_removes old new v :
  old <> new -> contains old (replace old new v) = false.
Proof.
  intros Hne. induction v as [|c v IH]; simpl; [reflexivity|].
  rewrite IH, orb_false_r.
  destruct (Ascii.eqb c old) eqn:E; [|exact E].
  apply Ascii.eqb_neq. congruence.
Qed.

Lemma replace_changes old new v :
  old <> new -> contains old v = true -> replace old new v <> v.
Proof.
  intros Hne Hin Heq.
  pose proof (replace_removes old new v Hne) as Hout.
  rewrite Heq in Hout. congruence.
Qed.

Lemma replace_id old new v :
  contains old v = false -> replace old new v = v.
Proof.
  induction v as [|c v IH]; simpl; [reflexivity|].
  intros H. apply orb_false_iff in H as [Hc Hv].
  rewrite Hc, IH; auto.
Qed.

Lemma repeat_len c n : len (repeat c n) = n.
Proof. unfold len. induction n as [|n IH]; simpl; [reflexivity | now f_equal]. Qed.

Lemma newline_neq_space : newline <> space.
Proof. discriminate. Qed.

End PyStrFacts.

(** ** The validators *)

Lemma text_replace_short v :
  PyStr.len v <= 140 -> TweetV1.text_replace v = Ok (normalized v).
Proof.
  intros H. unfold TweetV1.text_replace.
  destruct (Nat.ltb_spec 140 (PyStr.len v)); [lia | reflexivity].
Qed.

Lemma text_replace_long v :
  140 < PyStr.len v ->
  TweetV1.text_replace v
  = raise_expr (new_ValidationError "text should be less than 140 characters").
Proof.
  intros H. unfold TweetV1.text_replace.
  destruct (Nat.ltb_spec 140 (PyStr.len v)); [reflexivity | lia].
Qed.

Lemma description_replace_short v :
  PyStr.len v <= 80 -> TweetV1.description_replace v = Ok (normalized v).
Proof.
  intros H. unfold TweetV1.description_replace.
  destruct (Nat.ltb_spec 80 (PyStr.len v)); [lia | reflexivity].
Qed.

(** C9.  The length validators normalise what they accept: a text of at most
    140 characters, and a description of at most 80, is returned with every
    newline replaced by a space (same length, each position holding a space
    where the input held a newline and the input's character elsewhere, no
    newline left); so an accepted input that contains a newline is returned
    as a different string. *)
Theorem validators_normalize_newlines (v : string) :
  (PyStr.len v <= 140 -> TweetV1.text_replace v = Ok (normalized v)) /\
  (PyStr.len v <= 80 -> TweetV1.description_replace v = Ok (normalized v)) /\
  PyStr.len (normalized v) = PyStr.len v /\
  (forall i, String.get i (normalized v)
             = (fun c => if Ascii.eqb c PyStr.newline then PyStr.space else c)
                 <$> String.get i v) /\
  PyStr.contains PyStr.newline (normalized v) = false /\
  (PyStr.contains PyStr.newline v = true -> normalized v <> v).
Proof.
  split; [apply text_replace_short|].
  split; [apply description_replace_short|].
  split; [apply replace_len|].
  split; [intros i; apply replace_get|].
  split; [apply replace_removes, newline_neq_space|].
  apply replace_changes, newline_neq_space.
Qed.

Lemma validators_normalize_newlines_witness :
  TweetV1.text_replace two_lines = Ok "a b" /\
  TweetV1.description_replace two_lines = Ok "a b" /\
  normalized two_lines <> two_lines.
Proof.
  destruct (validators_normalize_newlines two_lines) as (Ht & Hd & _ & _ & _ & Hne).
  split; [apply Ht; vm_compute; lia|].
  split; [apply Hd; vm_compute; lia|].
  apply Hne. reflexivity.
Defined.

(** ** Assignment and the store *)

Section StoreFacts.

Context (Σ : schemas).

Lemma getattr_store_attr_eq self name v (h : heap) o :
  h !! self = Some o -> getattr (store_attr self name v h) self name = Some v.
Proof.
  intros Ho. unfold getattr, store_attr. rewrite Ho, lookup_insert_eq. simpl.
  apply lookup_insert_eq.
Qed.

Lemma getattr_store_attr_ne self name v (h : heap) a g :
  a <> self \/ g <> name -> getattr (store_attr self name v h) a g = getattr h a g.
Proof.
  intros Hne. unfold getattr, store_attr.
  destruct (h !! self) as [o|] eqn:Ho; [|reflexivity].
  destruct (decide (a = self)) as [->|Ha].
  - rewrite lookup_insert_eq, Ho. simpl. destruct Hne as [?|Hg]; [done|].
    now apply lookup_insert_ne.
  - rewrite lookup_insert_ne by done. reflexivity.
Qed.

Lemma store_attr_class self name v (h : heap) a :
  inst_class <$> store_attr self name v h !! a = inst_class <$> h !! a.
Proof.
  unfold store_attr. destruct (h !! self) as [o|] eqn:Ho; [|reflexivity].
  destruct (decide (a = self)) as [->|Ha].
  - now rewrite lookup_insert_eq, Ho.
  - now rewrite lookup_insert_ne.
Qed.

(** The two outcomes of [setattr]. *)
Lemma setattr_cases self name v (h : heap) :
  (exists o v', h !! self = Some o /\
                assignment Σ (inst_class o) name v = Ok v' /\
                setattr Σ self name v h = (Ok VNone, store_attr self name v' h))
  \/ (exists e, setattr Σ self name v h = (Raise e, h)).
Proof.
  unfold setattr. destruct (h !! self) as [o|]; [|right; eauto].
  destruct (assignment Σ (inst_class o) name v) as [v'|e] eqn:Ha.
  - left. exists o, v'. auto.
  - right. eauto.
Qed.

(** The wrapper is [setattr] followed by [return self]. *)
Lemma wrapper_unfold attr_name body self v (h : heap) :
  GenericFluentBuilder.fluent_setter Σ attr_name body self v h
  = match setattr Σ self attr_name v h with
    | (Ok _, h') => (Ok (VRef self), h')
    | (Raise e, h') => (Raise e, h')
    end.
Proof. reflexivity. Qed.

Lemma wrapper_cases attr_name body self v (h : heap) :
  (exists o v', h !! self = Some o /\
                assignment Σ (inst_class o) attr_name v = Ok v' /\
                GenericFluentBuilder.fluent_setter Σ attr_name body self v h
                = (Ok (VRef self), store_attr self attr_name v' h))
  \/ (exists e, GenericFluentBuilder.fluent_setter Σ attr_name body self v h = (Raise e, h)).
Proof.
  rewrite wrapper_unfold.
  destruct (setattr_cases self attr_name v h) as [(o & v' & Ho & Ha & ->)|[e ->]].
  - left. exists o, v'. auto.
  - right. eauto.
Qed.

(** Both source files define the same decorator. *)
Lemma fluent_setter_same :
  FluentSetter.fluent_setter = GenericFluentBuilder.fluent_setter.
Proof. reflexivity. Qed.

Lemma assignment_unvalidated cls name v v' :
  match Σ !! cls with
  | None => True
  | Some sc => sch_validate_assignment sc = false \/ sch_validators sc !! name = None
  end ->
  assignment Σ cls name v = Ok v' -> v' = v.
Proof.
  unfold assignment, validate_field.
  destruct (Σ !! cls) as [sc|]; [|congruence].
  case_bool_decide; [|discriminate].
  intros [-> | ->]; [congruence|].
  destruct (sch_validate_assignment sc); congruence.
Qed.

End StoreFacts.

(** ** Class attributes *)

Section ClassFacts.

Context (Σ : schemas).

Import GenericFluentBuilder.

Lemma with_dict_same cl : with_dict cl (cls_dict cl) = cl.
Proof. now destruct cl. Qed.

Lemma with_dict_twice cl d d' : with_dict (with_dict cl d) d' = with_dict cl d'.
Proof. reflexivity. Qed.

(** Replacing the namespace of [c] by one that agrees on [name] does not
    change where [name] is found. *)
Lemma find_attr_update (ct : classtable) c cl d ks name :
  ct !! c = Some cl ->
  d !! name = cls_dict cl !! name ->
  find_attr (<[c := with_dict cl d]> ct) ks name = find_attr ct ks name.
Proof.
  intros Hc Hd. induction ks as [|k ks IH]; simpl; [reflexivity|].
  destruct (decide (k = c)) as [->|Hk].
  - rewrite lookup_insert_eq, Hc. simpl. rewrite Hd, IH. reflexivity.
  - rewrite lookup_insert_ne by done. now rewrite IH.
Qed.

Lemma class_getattr_update (ct : classtable) c cl d k name :
  ct !! c = Some cl ->
  d !! name = cls_dict cl !! name ->
  class_getattr (<[c := with_dict cl d]> ct) k name = class_getattr ct k name.
Proof.
  intros Hc Hd. unfold class_getattr.
  destruct (decide (k = c)) as [->|Hk].
  - rewrite lookup_insert_eq, Hc. simpl cls_mro.
    now apply find_attr_update.
  - rewrite lookup_insert_ne by done.
    destruct (ct !! k); [now apply find_attr_update | reflexivity].
Qed.

Lemma class_getattr_own (ct : classtable) c cl name a :
  ct !! c = Some cl ->
  cls_dict cl !! name = Some a ->
  class_getattr ct c name = Some a.
Proof.
  intros Hc Ha. unfold class_getattr. rewrite Hc. simpl. now rewrite Hc, Ha.
Qed.

Lemma hasattr_own (ct : classtable) c cl name :
  ct !! c = Some cl ->
  hasattr ct c name = false ->
  cls_dict cl !! name = None.
Proof.
  intros Hc Hh. destruct (cls_dict cl !! name) as [a|] eqn:Ha; [|reflexivity].
  unfold hasattr in Hh. now rewrite (class_getattr_own ct c cl name a) in Hh.
Qed.

Lemma hasattr_type_setattr (ct : classtable) c cl n a name :
  ct !! c = Some cl ->
  hasattr (<[c := with_dict cl (<[n := a]> (cls_dict cl))]> ct) c name
  = if decide (name = n) then true else hasattr ct c name.
Proof.
  intros Hc. unfold hasattr. case_decide as Hn.
  - subst. erewrite class_getattr_own; [reflexivity | apply lookup_insert_eq |].
    simpl. apply lookup_insert_eq.
  - rewrite class_getattr_update; [reflexivity | done |].
    now apply lookup_insert_ne.
Qed.

Lemma synthesized_cons f fields name :
  synthesized Σ (f :: fields) name
  = if decide (method_name f = name) then Some (generated_setter Σ f)
    else synthesized Σ fields name.
Proof.
  unfold synthesized. cbn [List.find].
  destruct (String.eqb_spec (method_name f) name) as [Hn|Hn].
  - now rewrite decide_True.
  - now rewrite decide_False.
Qed.

(** The method name determines the field. *)
Lemma method_name_eq field : method_name field = "with_" ++ field.
Proof. reflexivity. Qed.

Lemma method_name_inj f g : method_name f = method_name g -> f = g.
Proof. intros H. cbv in H. now injection H. Qed.

(** One iteration of the loop. *)
Lemma generate_one_has (ct : classtable) c f :
  hasattr ct c (method_name f) = true ->
  generate_one Σ c f ct = (Ok tt, ct).
Proof. intros H. unfold generate_one. now rewrite H. Qed.

Lemma generate_one_new (ct : classtable) c cl f :
  ct !! c = Some cl ->
  hasattr ct c (method_name f) = false ->
  generate_one Σ c f ct
  = (Ok tt, <[c := with_dict cl (<[method_name f := generated_setter Σ f]> (cls_dict cl))]> ct).
Proof. intros Hc H. unfold generate_one, type_setattr. now rewrite H, Hc. Qed.

(** What the loop over [fields] does to the class table: only the namespace
    of [c] changes; a name the class already had keeps its entry, and a name
    it lacked gets the setter synthesized for it, if one is. *)
Lemma for_each_generate fields :
  forall (ct : classtable) c cl,
    ct !! c = Some cl ->
    exists d',
      for_each fields (generate_one Σ c) ct = (Ok tt, <[c := with_dict cl d']> ct) /\
      forall name,
        d' !! name = if hasattr ct c name then cls_dict cl !! name
                     else synthesized Σ fields name.
Proof.
  induction fields as [|f fields IH]; intros ct c cl Hc.
  - exists (cls_dict cl). split.
    + simpl. unfold cret. now rewrite with_dict_same, insert_id.
    + intros name. destruct (hasattr ct c name) eqn:Hh; [reflexivity|].
      now apply (hasattr_own ct c).
  - cbn [for_each]. unfold cbind.
    destruct (hasattr ct c (method_name f)) eqn:Hf.
    + rewrite generate_one_has by done.
      destruct (IH ct c cl Hc) as (d' & Hrun & Hd'). exists d'. split; [exact Hrun|].
      intros name. rewrite Hd', synthesized_cons.
      destruct (hasattr ct c name) eqn:Hh; [reflexivity|].
      case_decide; [congruence | reflexivity].
    + rewrite (generate_one_new ct c cl) by done.
      set (cl1 := with_dict cl (<[method_name f := _]> (cls_dict cl))).
      destruct (IH (<[c := cl1]> ct) c cl1) as (d' & Hrun & Hd');
        [apply lookup_insert_eq|].
      exists d'. split.
      * rewrite Hrun. now rewrite insert_insert_eq.
      * intros name. rewrite Hd', synthesized_cons.
        unfold cl1 at 1. rewrite hasattr_type_setattr by done.
        destruct (decide (name = method_name f)) as [->|Hn].
        -- rewrite Hf. simpl. rewrite lookup_insert_eq.
           now rewrite decide_True.
        -- simpl. rewrite lookup_insert_ne by done.
           destruct (hasattr ct c name); [reflexivity|].
           now rewrite decide_False.
Qed.

Lemma synthesized_inv fields name a :
  synthesized Σ fields name = Some a ->
  exists f, f ∈ fields /\ name = method_name f /\ a = generated_setter Σ f.
Proof.
  induction fields as [|g fields IH]; [discriminate|].
  rewrite synthesized_cons. case_decide as Hn.
  - intros [= <-]. exists g. split; [left | auto].
  - intros H. destruct (IH H) as (f & Hin & Hf). exists f. split; [now right | exact Hf].
Qed.

Lemma synthesized_Some fields f :
  f ∈ fields -> synthesized Σ fields (method_name f) = Some (generated_setter Σ f).
Proof.
  induction 1 as [f fields | f g fields _ IH]; rewrite synthesized_cons.
  - now rewrite decide_True.
  - case_decide as Hn; [|exact IH]. now rewrite (method_name_inj _ _ Hn).
Qed.

Lemma synthesized_None fields name :
  (forall f, f ∈ fields -> method_name f <> name) -> synthesized Σ fields name = None.
Proof.
  intros H. destruct (synthesized Σ fields name) as [a|] eqn:E; [|reflexivity].
  apply synthesized_inv in E as (f & Hin & -> & _). now destruct (H f Hin).
Qed.

(** The loop changes nothing when every field already has its method. *)
Lemma for_each_idle fields (ct : classtable) c :
  (forall f, f ∈ fields -> hasattr ct c (method_name f) = true) ->
  for_each fields (generate_one Σ c) ct = (Ok tt, ct).
Proof.
  induction fields as [|f fields IH]; intros H; [reflexivity|].
  cbn [for_each]. unfold cbind. rewrite generate_one_has by (apply H; left).
  apply IH. intros g Hg. apply H. now right.
Qed.

(** [generate_fluent_setters] on a class of the table. *)
Lemma generate_spec (ct : classtable) c cl :
  ct !! c = Some cl ->
  exists d',
    generate_fluent_setters Σ c ct = (Ok VNone, <[c := with_dict cl d']> ct) /\
    forall name,
      d' !! name = if hasattr ct c name then cls_dict cl !! name
                   else synthesized Σ (cls_annotations cl).*1 name.
Proof.
  intros Hc. destruct (for_each_generate (cls_annotations cl).*1 ct c cl Hc)
    as (d' & Hrun & Hd').
  exists d'. split; [|exact Hd'].
  unfold generate_fluent_setters, cbind. now rewrite Hc, Hrun.
Qed.

(** After the run a name the class had is found where it was. *)
Lemma generated_keeps (ct : classtable) c cl (d' : gmap string attr) k name :
  ct !! c = Some cl ->
  (forall n, d' !! n = if hasattr ct c n then cls_dict cl !! n
                       else synthesized Σ (cls_annotations cl).*1 n) ->
  hasattr ct c name = true ->
  class_getattr (<[c := with_dict cl d']> ct) k name = class_getattr ct k name.
Proof.
  intros Hc Hd Hh. apply class_getattr_update; [done|]. now rewrite Hd, Hh.
Qed.

(** After the run every declared field has its method. *)
Lemma generated_has (ct : classtable) c cl (d' : gmap string attr) f :
  ct !! c = Some cl ->
  (forall n, d' !! n = if hasattr ct c n then cls_dict cl !! n
                       else synthesized Σ (cls_annotations cl).*1 n) ->
  f ∈ (cls_annotations cl).*1 ->
  hasattr (<[c := with_dict cl d']> ct) c (method_name f) = true.
Proof.
  intros Hc Hd Hf. destruct (hasattr ct c (method_name f)) eqn:Hh.
  - unfold hasattr in *. now rewrite (generated_keeps ct c cl d').
  - unfold hasattr.
    erewrite class_getattr_own; [reflexivity | apply lookup_insert_eq |].
    simpl. rewrite Hd, Hh. now apply synthesized_Some.
Qed.

End ClassFacts.

(** ** Calls and chains *)

Section CallFacts.

Context (ct : classtable).

Lemma call_method_found self name v (h : heap) o m :
  h !! self = Some o ->
  inst_dict o !! name = None ->
  class_getattr ct (inst_class o) name = Some (Method m) ->
  call_method ct self name v h = m self v h.
Proof. intros Ho Hd Hm. unfold call_method. now rewrite Ho, Hd, Hm. Qed.

Lemma chain_app target calls1 calls2 (h : heap) :
  chain ct target (calls1 ++ calls2) h
  = match chain ct target calls1 h with
    | (Ok r, h') => chain ct r calls2 h'
    | (Raise e, h') => (Raise e, h')
    end.
Proof.
  revert target h. induction calls1 as [|[name v] calls1 IH]; intros target h.
  - reflexivity.
  - simpl. destruct target; try reflexivity.
    unfold bind. destruct (call_method ct a name v h) as [[r|e] h']; [apply IH | reflexivity].
Qed.

End CallFacts.

(** ** The setter call *)

(** C1.  A call of a fluent setter that succeeds returns the reference it was
    called on, whatever method the decorator wrapped: the wrapper of
    [fluent_setter.py] and that of [generic_fluent_builder.py] return [self]
    for every wrapped body, and so does the call [m.name(v)] when the class
    of [m] has under [name] a hand-decorated setter or the one generation
    builds. *)
Theorem fluent_setter_returns_self
    (Σ : schemas) (ct : classtable) f name body self o v (h : heap) r h' :
  h !! self = Some o ->
  inst_dict o !! name = None ->
  class_getattr ct (inst_class o) name
    = Some (Method (FluentSetter.fluent_setter Σ f body))
  \/ class_getattr ct (inst_class o) name = Some (generated_setter Σ f) ->
  call_method ct self name v h = (Ok r, h') ->
  r = VRef self /\
  (forall body', FluentSetter.fluent_setter Σ f body' self v h = (Ok (VRef self), h')) /\
  (forall body', GenericFluentBuilder.fluent_setter Σ f body' self v h = (Ok (VRef self), h')).
Proof.
  intros Ho Hd Hm Hcall.
  assert (GenericFluentBuilder.fluent_setter Σ f body self v h = (Ok r, h')) as Hw.
  { destruct Hm as [Hm|Hm];
      rewrite (call_method_found ct self name v h o _ Ho Hd Hm) in Hcall; exact Hcall. }
  destruct (wrapper_cases Σ f body self v h) as [(o' & v' & _ & _ & Hok)|[e He]];
    [|congruence].
  rewrite Hok in Hw. injection Hw as <- <-.
  split; [reflexivity|]. split; intros body'; exact Hok.
Qed.

Lemma fluent_setter_returns_self_witness :
  exists h', call_method (Sample.decorated Sample.declared) 0 "with_text" (VStr "hi") Sample.store
             = (Ok (VRef 0), h').
Proof.
  eexists.
  pose proof (fluent_setter_returns_self Sample.declared (Sample.decorated Sample.declared)
                "text" "with_text" Sample.stub 0 Sample.tweet (VStr "hi") Sample.store
                (VRef 0) _ eq_refl eq_refl (or_introl eq_refl) eq_refl) as [_ [H _]].
  exact (H Sample.stub).
Defined.

(** C2, as amended.  After a setter call succeeds, the field holds the value
    the record type's assignment stored for the argument: the argument itself
    when the type does not validate on assignment or has no validator for the
    field, and otherwise what the field's validator returned for it. *)
Theorem setter_stores_assigned_value
    (Σ : schemas) f body self v (h : heap) r h' :
  FluentSetter.fluent_setter Σ f body self v h = (Ok r, h') ->
  exists o v',
    h !! self = Some o /\
    assignment Σ (inst_class o) f v = Ok v' /\
    getattr h' self f = Some v' /\
    (unvalidated Σ (inst_class o) f -> v' = v).
Proof.
  intros Hw.
  destruct (wrapper_cases Σ f body self v h) as [(o & v' & Ho & Ha & Hok)|[e He]].
  - rewrite fluent_setter_same, Hok in Hw. injection Hw as _ <-.
    exists o, v'. split; [exact Ho|]. split; [exact Ha|].
    split; [now apply (getattr_store_attr_eq self f v' h o)|].
    intros Hu. now apply (assignment_unvalidated Σ (inst_class o) f).
  - rewrite fluent_setter_same, He in Hw. discriminate.
Qed.

Lemma setter_stores_assigned_value_witness :
  exists o v',
    Sample.store !! 0 = Some o /\
    assignment Sample.strict (inst_class o) "text" (VStr two_lines) = Ok v' /\
    getattr (FluentSetter.fluent_setter Sample.strict "text" Sample.stub 0
               (VStr two_lines) Sample.store).2 0 "text" = Some v' /\
    (unvalidated Sample.strict (inst_class o) "text" -> v' = VStr two_lines).
Proof.
  apply (setter_stores_assigned_value Sample.strict "text" Sample.stub 0
           (VStr two_lines) Sample.store (VRef 0)).
  reflexivity.
Defined.

(** On a type that validates on assignment with [Tweet]'s text validator, a
    text with a newline is stored with a space in its place. *)
Lemma assignment_is_not_exact : ~ assignment_is_exact.
Proof.
  intros H.
  specialize (H Sample.strict "text" Sample.stub 0 (VStr two_lines) Sample.store
                (VRef 0) _ eq_refl).
  vm_compute in H. discriminate H.
Qed.

(** C6.  A setter call for field [f] on [self] leaves every other attribute
    of [self], and every attribute of every other object, as it was.  A call
    that returns has done one store, into [f] of [self]; a call that raises
    has done none.  This holds for every wrapped body, hence for decorated and
    generated setters alike, whose wrappers coincide. *)
Theorem setter_frame (Σ : schemas) f body self v (h : heap) :
  let out := FluentSetter.fluent_setter Σ f body self v h in
  GenericFluentBuilder.fluent_setter Σ f body self v h = out /\
  (forall a g, a <> self \/ g <> f -> getattr out.2 a g = getattr h a g) /\
  (forall a, inst_class <$> out.2 !! a = inst_class <$> h !! a) /\
  match out.1 with
  | Ok _ => exists v', out.2 = store_attr self f v' h
  | Raise _ => out.2 = h
  end.
Proof.
  intros out. subst out. split; [reflexivity|].
  rewrite fluent_setter_same.
  destruct (wrapper_cases Σ f body self v h) as [(o & v' & Ho & Ha & ->)|[e ->]]; simpl.
  - split; [intros a g Hne; now apply getattr_store_attr_ne|].
    split; [intros a; apply store_attr_class|].
    now exists v'.
  - auto.
Qed.

(** C7.  What the code does where a validation error is expected.  On a
    record type that validates on assignment and whose [text] field carries
    [Tweet.text_replace], a call of the decorated or generated setter of
    [text] with a 141-character string raises at that call, ends the chain
    and leaves the store as the calls made earlier in the chain left it; the
    exception, however, is the [TypeError] of the constructor call on line
    48, not a validation error. *)
Theorem overlong_text_raises_type_error
    (Σ : schemas) (ct : classtable) name body self o sc s earlier later (h h1 : heap) :
  chain ct (VRef self) earlier h = (Ok (VRef self), h1) ->
  h1 !! self = Some o ->
  inst_dict o !! name = None ->
  class_getattr ct (inst_class o) name
    = Some (Method (GenericFluentBuilder.fluent_setter Σ "text" body)) ->
  Σ !! inst_class o = Some sc ->
  sch_validate_assignment sc = true ->
  "text" ∈ sch_fields sc ->
  sch_validators sc !! "text" = Some (str_validator TweetV1.text_replace) ->
  PyStr.len s = 141 ->
  exists msg,
    call_method ct self name (VStr s) h1 = (Raise (TypeError msg), h1) /\
    chain ct (VRef self) (earlier ++ (name, VStr s) :: later) h
    = (Raise (TypeError msg), h1) /\
    ~ is_validation_error (call_method ct self name (VStr s) h1).1.
Proof.
  intros Hchain Ho Hd Hm Hsc Hva Hf Hv Hlen.
  assert (call_method ct self name (VStr s) h1
          = (Raise (TypeError "No constructor defined"), h1)) as Hcall.
  { rewrite (call_method_found ct self name _ h1 o _ Ho Hd Hm).
    rewrite wrapper_unfold. unfold setattr. rewrite Ho.
    unfold assignment. rewrite Hsc, bool_decide_eq_true_2 by done.
    unfold validate_field. rewrite Hva, Hv. simpl.
    rewrite text_replace_long by lia. reflexivity. }
  eexists. split; [exact Hcall|]. split.
  - rewrite chain_app, Hchain. simpl. unfold bind. now rewrite Hcall.
  - rewrite Hcall. simpl. tauto.
Qed.

Lemma overlong_text_raises_type_error_witness :
  let ct := Sample.decorated Sample.strict in
  exists msg h1,
    chain ct (VRef 0) [("with_text", VStr "hi")] Sample.store = (Ok (VRef 0), h1) /\
    getattr h1 0 "text" = Some (VStr "hi") /\
    chain ct (VRef 0) [("with_text", VStr "hi"); ("with_text", VStr Sample.overlong);
                       ("with_text", VStr "bye")] Sample.store
    = (Raise (TypeError msg), h1).
Proof.
  intros ct.
  destruct (overlong_text_raises_type_error Sample.strict ct "with_text" Sample.stub 0
              (Instance "Tweet" (<["text" := VStr "hi"]> (inst_dict Sample.tweet)))
              (TweetModels.validating TweetModels.Tweet_schema) Sample.overlong
              [("with_text", VStr "hi")] [("with_text", VStr "bye")] Sample.store
              (store_attr 0 "text" (VStr "hi") Sample.store))
    as (msg & _ & Hchain & _); [reflexivity | reflexivity | reflexivity | reflexivity
                               | reflexivity | reflexivity
                               | apply (bool_decide_unpack _); vm_compute; exact I
                               | reflexivity | reflexivity |].
  exists msg, (store_attr 0 "text" (VStr "hi") Sample.store).
  split; [reflexivity|]. split; [reflexivity | exact Hchain].
Defined.

(** [Tweet] as declared does not validate on assignment: its decorated setter
    stores a 141-character text and raises nothing. *)
Lemma overlong_text_not_always_rejected : ~ overlong_text_always_rejected.
Proof.
  intros H.
  destruct (H Sample.declared TweetModels.Tweet_schema Sample.stub 0 Sample.tweet
              Sample.overlong Sample.store eq_refl eq_refl) as [Herr _].
  - apply (bool_decide_unpack _). vm_compute. exact I.
  - reflexivity.
  - reflexivity.
  - vm_compute in Herr. exact Herr.
Qed.

(** ** Generation *)

(** C3.  Running [generate_fluent_setters] on the result of a first run gives
    back that result: same outcome, same class table, hence the same
    namespaces with the same methods under the same names.  Nothing the first
    run left in place or built is built again. *)
Theorem generate_idempotent (Σ : schemas) c (ct : classtable) :
  let once := GenericFluentBuilder.generate_fluent_setters Σ c ct in
  GenericFluentBuilder.generate_fluent_setters Σ c once.2 = once /\
  generated Σ c (generated Σ c ct) = generated Σ c ct.
Proof.
  assert (GenericFluentBuilder.generate_fluent_setters Σ c
            (GenericFluentBuilder.generate_fluent_setters Σ c ct).2
          = GenericFluentBuilder.generate_fluent_setters Σ c ct) as Hidem.
  { destruct (ct !! c) as [cl|] eqn:Hc.
    - destruct (generate_spec Σ ct c cl Hc) as (d' & Hrun & Hd').
      rewrite Hrun. simpl.
      unfold GenericFluentBuilder.generate_fluent_setters at 1.
      rewrite lookup_insert_eq. simpl cls_annotations.
      unfold cbind. rewrite for_each_idle; [reflexivity|].
      intros f Hf. now apply (generated_has Σ ct c cl d').
    - unfold GenericFluentBuilder.generate_fluent_setters. rewrite Hc. simpl.
      now rewrite Hc. }
  intros once. split; [exact Hidem|].
  unfold generated. now rewrite Hidem.
Qed.

(** C4.  A method the class has under the name [with_f] before generation,
    its own or an inherited one, is the method every class has under that
    name after generation: the namespace entry of the class is not replaced,
    and a call of [with_f] on an instance of the class runs the method that
    was there, with the same result. *)
Theorem override_precedence (Σ : schemas) (ct : classtable) c cl f m :
  ct !! c = Some cl ->
  class_getattr ct c (GenericFluentBuilder.method_name f) = Some (Method m) ->
  exists ct',
    GenericFluentBuilder.generate_fluent_setters Σ c ct = (Ok VNone, ct') /\
    own_dict ct' c !! GenericFluentBuilder.method_name f
      = own_dict ct c !! GenericFluentBuilder.method_name f /\
    (forall k, class_getattr ct' k (GenericFluentBuilder.method_name f)
               = class_getattr ct k (GenericFluentBuilder.method_name f)) /\
    (forall self o v (h : heap),
        h !! self = Some o -> inst_class o = c ->
        call_method ct' self (GenericFluentBuilder.method_name f) v h
        = call_method ct self (GenericFluentBuilder.method_name f) v h /\
        (inst_dict o !! GenericFluentBuilder.method_name f = None ->
         call_method ct' self (GenericFluentBuilder.method_name f) v h = m self v h)).
Proof.
  intros Hc Hm.
  destruct (generate_spec Σ ct c cl Hc) as (d' & Hrun & Hd').
  assert (hasattr ct c (GenericFluentBuilder.method_name f) = true) as Hh
    by (unfold hasattr; now rewrite Hm).
  assert (forall k, class_getattr (<[c := with_dict cl d']> ct) k
                      (GenericFluentBuilder.method_name f)
                    = class_getattr ct k (GenericFluentBuilder.method_name f)) as Hkeep
    by (intros k; now apply (generated_keeps Σ ct c cl d')).
  eexists. split; [exact Hrun|].
  split; [|split; [exact Hkeep|]].
  - unfold own_dict. rewrite lookup_insert_eq, Hc. simpl. now rewrite Hd', Hh.
  - intros self o v h Ho Hcls. subst c. split.
    + unfold call_method. rewrite Ho. now rewrite Hkeep.
    + intros Hd. apply (call_method_found _ self _ v h o m Ho Hd).
      now rewrite Hkeep.
Qed.

Lemma override_precedence_witness :
  exists ct',
    GenericFluentBuilder.generate_fluent_setters Sample.declared "Tweet"
      (Sample.handwritten Sample.declared) = (Ok VNone, ct') /\
    call_method ct' 0 "with_text" (VStr "hi") Sample.store
    = Sample.shout Sample.declared 0 (VStr "hi") Sample.store.
Proof.
  destruct (override_precedence Sample.declared (Sample.handwritten Sample.declared)
              "Tweet" _ "text" (Sample.shout Sample.declared) eq_refl eq_refl)
    as (ct' & Hrun & _ & _ & Hcall).
  exists ct'. split; [exact Hrun|].
  exact (proj2 (Hcall 0 Sample.tweet (VStr "hi") Sample.store eq_refl eq_refl) eq_refl).
Defined.

(** C8.  On a class without declared fields [generate_fluent_setters]
    returns [None], raises nothing and leaves the class table, the class's
    namespace included, exactly as it was. *)
Theorem generate_zero_fields (Σ : schemas) (ct : classtable) c cl :
  ct !! c = Some cl ->
  cls_annotations cl = [] ->
  GenericFluentBuilder.generate_fluent_setters Σ c ct = (Ok VNone, ct) /\
  own_dict (generated Σ c ct) c = cls_dict cl.
Proof.
  intros Hc Hnone.
  assert (GenericFluentBuilder.generate_fluent_setters Σ c ct = (Ok VNone, ct)) as Hrun.
  { unfold GenericFluentBuilder.generate_fluent_setters. now rewrite Hc, Hnone. }
  split; [exact Hrun|].
  unfold generated, own_dict. now rewrite Hrun; simpl; rewrite Hc.
Qed.

Lemma generate_zero_fields_witness :
  GenericFluentBuilder.generate_fluent_setters Sample.declared "Empty" Sample.fieldless
  = (Ok VNone, Sample.fieldless).
Proof.
  exact (proj1 (generate_zero_fields Sample.declared Sample.fieldless "Empty" _
                  eq_refl eq_refl)).
Defined.

(** C10.  The run on a class goes over the annotations of that class alone.
    For a field [f] declared on an ancestor and not on the class itself, the
    run leaves the class's namespace entry for [with_f] as it was, and where
    [with_f] resolved before, it resolves after; a class that had no [with_f]
    has none after the run. *)
Theorem inherited_fields_not_generated
    (Σ : schemas) (ct : classtable) c cl p pl f :
  ct !! c = Some cl ->
  p ∈ cls_mro cl ->
  ct !! p = Some pl ->
  f ∈ (cls_annotations pl).*1 ->
  f ∉ (cls_annotations cl).*1 ->
  exists ct',
    GenericFluentBuilder.generate_fluent_setters Σ c ct = (Ok VNone, ct') /\
    ct' = (for_each (cls_annotations cl).*1 (GenericFluentBuilder.generate_one Σ c) ct).2 /\
    own_dict ct' c !! GenericFluentBuilder.method_name f
      = own_dict ct c !! GenericFluentBuilder.method_name f /\
    class_getattr ct' c (GenericFluentBuilder.method_name f)
      = class_getattr ct c (GenericFluentBuilder.method_name f) /\
    (hasattr ct c (GenericFluentBuilder.method_name f) = false ->
     hasattr ct' c (GenericFluentBuilder.method_name f) = false).
Proof.
  intros Hc _ _ _ Hnot.
  destruct (for_each_generate Σ (cls_annotations cl).*1 ct c cl Hc) as (d' & Hloop & Hd').
  assert (GenericFluentBuilder.generate_fluent_setters Σ c ct
          = (Ok VNone, <[c := with_dict cl d']> ct)) as Hrun.
  { unfold GenericFluentBuilder.generate_fluent_setters, cbind. now rewrite Hc, Hloop. }
  assert (d' !! GenericFluentBuilder.method_name f
          = cls_dict cl !! GenericFluentBuilder.method_name f) as Hsame.
  { rewrite Hd'. destruct (hasattr ct c _) eqn:Hh; [reflexivity|].
    rewrite (hasattr_own ct c cl _ Hc Hh).
    apply synthesized_None. intros g Hg Heq.
    apply method_name_inj in Heq. now subst. }
  assert (class_getattr (<[c := with_dict cl d']> ct) c (GenericFluentBuilder.method_name f)
          = class_getattr ct c (GenericFluentBuilder.method_name f)) as Hget
    by now apply class_getattr_update.
  eexists. split; [exact Hrun|].
  split; [now rewrite Hloop|].
  split; [|split; [exact Hget|]].
  - unfold own_dict. now rewrite lookup_insert_eq, Hc.
  - unfold hasattr. now rewrite Hget.
Qed.

Lemma inherited_fields_not_generated_witness :
  exists ct',
    GenericFluentBuilder.generate_fluent_setters Sample.declared "Child" Sample.family
    = (Ok VNone, ct') /\
    hasattr ct' "Child" "with_a" = false.
Proof.
  destruct (inherited_fields_not_generated Sample.declared Sample.family
              "Child" Sample.Child "Parent" Sample.Parent "a" eq_refl)
    as (ct' & Hrun & _ & _ & _ & Hno).
  - apply (bool_decide_unpack _). vm_compute. exact I.
  - reflexivity.
  - apply (bool_decide_unpack _). vm_compute. exact I.
  - apply (bool_decide_unpack _). vm_compute. exact I.
  - exists ct'. split; [exact Hrun | apply Hno; reflexivity].
Defined.

Section Synthesis.

Context (Σ : schemas).

Import GenericFluentBuilder.

Lemma method_name_injective : Inj (=) (=) method_name.
Proof. intros f g. apply method_name_inj. Qed.

Lemma elem_of_missing (ct : classtable) c fields g :
  g ∈ missing ct c fields <-> g ∈ fields /\ hasattr ct c (method_name g) = false.
Proof.
  unfold missing. rewrite !list_elem_of_In, List.filter_In, negb_true_iff. reflexivity.
Qed.

(** The names in the namespace after the run: those it had, and one per
    declared field that had no method. *)
Lemma generated_dom (ct : classtable) c cl (d' : gmap string attr) :
  ct !! c = Some cl ->
  (forall n, d' !! n = if hasattr ct c n then cls_dict cl !! n
                       else synthesized Σ (cls_annotations cl).*1 n) ->
  dom d' = dom (cls_dict cl)
           ∪ list_to_set (method_name <$> missing ct c (cls_annotations cl).*1).
Proof.
  intros Hc Hd. apply set_eq. intros name.
  rewrite elem_of_union, !elem_of_dom, elem_of_list_to_set, list_elem_of_fmap, Hd.
  split.
  - intros [a Ha]. destruct (hasattr ct c name) eqn:Hh; [left; eauto|].
    right. apply synthesized_inv in Ha as (g & Hg & -> & _).
    exists g. split; [reflexivity|]. now apply elem_of_missing.
  - intros [[a Ha]|(g & -> & Hg)].
    + unfold hasattr. rewrite (class_getattr_own ct c cl name a Hc Ha). eauto.
    + apply elem_of_missing in Hg as [Hg Hh]. rewrite Hh.
      rewrite synthesized_Some by done. eauto.
Qed.

Lemma generated_size (ct : classtable) c cl (d' : gmap string attr) :
  ct !! c = Some cl ->
  NoDup (cls_annotations cl).*1 ->
  (forall n, d' !! n = if hasattr ct c n then cls_dict cl !! n
                       else synthesized Σ (cls_annotations cl).*1 n) ->
  size d' = size (cls_dict cl) + List.length (missing ct c (cls_annotations cl).*1).
Proof.
  intros Hc Hnd Hd.
  rewrite <- (size_dom (D := gset string) d'), (generated_dom ct c cl d' Hc Hd).
  rewrite size_union.
  - rewrite size_dom, size_list_to_set, length_fmap; [reflexivity|].
    apply (@NoDup_fmap_2 _ _ _ method_name_injective). unfold missing.
    apply NoDup_ListNoDup, List.NoDup_filter. now apply NoDup_ListNoDup.
  - intros name Hin Hnew.
    apply elem_of_dom in Hin as [a Ha].
    apply elem_of_list_to_set, list_elem_of_fmap in Hnew as (g & -> & Hg).
    apply elem_of_missing in Hg as [_ Hh].
    now rewrite (hasattr_own ct c cl _ Hc Hh) in Ha.
Qed.

End Synthesis.

(** C5.  For a declared field [f] of the class that has no [with_f] yet, the
    run puts into the namespace of the class, under the name ["with_" ++ f],
    the wrapper of [f], which assigns its argument to [f] and returns [self];
    instances reach it through their class.  No other class changes.  With
    the field names pairwise different, as the keys of [__annotations__]
    are, the namespace gains exactly one name per declared field that lacked
    its method, and nothing else. *)
Theorem generate_attaches_setter (Σ : schemas) (ct : classtable) c cl f :
  ct !! c = Some cl ->
  NoDup (cls_annotations cl).*1 ->
  f ∈ (cls_annotations cl).*1 ->
  hasattr ct c (GenericFluentBuilder.method_name f) = false ->
  let set_then_self self v (h : heap) :=
    match setattr Σ self f v h with
    | (Ok _, h') => (Ok (VRef self), h')
    | (Raise e, h') => (Raise e, h')
    end in
  exists ct',
    GenericFluentBuilder.generate_fluent_setters Σ c ct = (Ok VNone, ct') /\
    GenericFluentBuilder.method_name f = "with_" ++ f /\
    own_dict ct' c !! GenericFluentBuilder.method_name f = Some (generated_setter Σ f) /\
    (forall self v h,
        GenericFluentBuilder.fluent_setter Σ f (GenericFluentBuilder.setter_lambda Σ f) self v h
        = set_then_self self v h) /\
    (forall self o v (h : heap),
        h !! self = Some o -> inst_class o = c ->
        inst_dict o !! GenericFluentBuilder.method_name f = None ->
        call_method ct' self (GenericFluentBuilder.method_name f) v h = set_then_self self v h) /\
    (forall k, k <> c -> ct' !! k = ct !! k) /\
    dom (own_dict ct' c)
      = dom (own_dict ct c)
        ∪ list_to_set (GenericFluentBuilder.method_name
                         <$> missing ct c (cls_annotations cl).*1) /\
    size (own_dict ct' c)
      = size (own_dict ct c) + List.length (missing ct c (cls_annotations cl).*1).
Proof.
  intros Hc Hnd Hf Hh set_then_self.
  destruct (generate_spec Σ ct c cl Hc) as (d' & Hrun & Hd').
  assert (own_dict (<[c := with_dict cl d']> ct) c = d') as Hown
    by (unfold own_dict; now rewrite lookup_insert_eq).
  assert (d' !! GenericFluentBuilder.method_name f = Some (generated_setter Σ f)) as Hnew
    by (rewrite Hd', Hh; now apply synthesized_Some).
  eexists. split; [exact Hrun|]. rewrite Hown.
  split; [reflexivity|]. split; [exact Hnew|]. split; [reflexivity|].
  split; [|split; [|split]].
  - intros self o v h Ho Hcls Hd. subst c.
    apply (call_method_found _ self _ v h o _ Ho Hd).
    apply (class_getattr_own _ _ (with_dict cl d')); [apply lookup_insert_eq | exact Hnew].
  - intros k Hk. now apply lookup_insert_ne.
  - unfold own_dict. rewrite Hc. now apply (generated_dom Σ).
  - unfold own_dict. rewrite Hc. now apply (generated_size Σ).
Qed.

Lemma generate_attaches_setter_witness :
  exists ct',
    GenericFluentBuilder.generate_fluent_setters Sample.declared "Tweet" Sample.bare
    = (Ok VNone, ct') /\
    own_dict ct' "Tweet" !! "with_text" = Some (generated_setter Sample.declared "text") /\
    size (own_dict ct' "Tweet") = 6.
Proof.
  destruct (generate_attaches_setter Sample.declared Sample.bare "Tweet"
              (Sample.Tweet {[ "with_id_str" := ClassAttr VNone ]}) "text" eq_refl)
    as (ct' & Hrun & _ & Hnew & _ & _ & _ & _ & Hsize).
  - apply (bool_decide_unpack _). vm_compute. exact I.
  - apply (bool_decide_unpack _). vm_compute. exact I.
  - reflexivity.
  - exists ct'. split; [exact Hrun|]. split; [exact Hnew|].
    rewrite Hsize. reflexivity.
Defined.

(** ** Worked examples *)

(** After generation on [Tweet], a chain of two generated setters sets both
    fields on the one instance. *)
Example generated_chain :
  let ct := generated Sample.declared "Tweet" Sample.bare in
  chain ct (VRef 0) [("with_created_at", VStr "now"); ("with_text", VStr "hi")] Sample.store
  = (Ok (VRef 0),
     {[ 0 := Instance "Tweet"
               {[ "created_at" := VStr "now"; "id_str" := VStr "1"; "text" := VStr "hi" ]} ]}).
Proof. vm_compute. reflexivity. Qed.

(** The name [with_id_str] was taken by a class attribute: generation left
    it alone, and calling it fails. *)
Example taken_name_is_kept :
  let ct := generated Sample.declared "Tweet" Sample.bare in
  own_dict ct "Tweet" !! "with_id_str" = Some (ClassAttr VNone) /\
  call_method ct 0 "with_id_str" (VStr "2") Sample.store
  = (Raise (TypeError "object is not callable"), Sample.store).
Proof. split; vm_compute; reflexivity. Qed.

(** The wrapped lambda alone would return [self] as well: [setattr] returns
    [None], and [None or self] is [self]. *)
Example lambda_returns_self :
  (GenericFluentBuilder.setter_lambda Sample.declared "text" 0 (VStr "hi") Sample.store).1
  = Ok (VRef 0).
Proof. reflexivity. Qed.

(** A decorator applied to a name that is not a field builds a setter that
    fails when it is called. *)
Example unknown_field_fails :
  FluentSetter.fluent_setter Sample.declared "nope" Sample.stub 0 VNone Sample.store
  = (Raise (ValueError "object has no field"), Sample.store).
Proof. reflexivity. Qed.

(** The description validator of [User] accepts 80 characters; on 81 its
    raise statement ends in a [TypeError]. *)
Example description_limit :
  is_type_error (TweetV1.description_replace (PyStr.repeat "d"%char 81)) /\
  TweetV1.description_replace (PyStr.repeat "d"%char 80) = Ok (PyStr.repeat "d"%char 80).
Proof. split; [exact I | reflexivity]. Qed.

(** [Child] gets [with_b] and no [with_a]; [Parent] is untouched. *)
Example child_generation :
  let ct := generated Sample.declared "Child" Sample.family in
  hasattr ct "Child" "with_b" = true /\
  hasattr ct "Child" "with_a" = false /\
  ct !! "Parent" = Some Sample.Parent.
Proof. split; [|split]; vm_compute; reflexivity. Qed.

(* ===================================================================== *)
(** * Further properties of the validators *)
(* ===================================================================== *)

(** X1.  [Tweet.text_replace] raises exactly on texts of more than 140
    characters, and [User.description_replace] exactly on descriptions of
    more than 80; a text of exactly 140 characters, and a description of
    exactly 80, is accepted.  What is raised is a [TypeError]: the
    [ValidationError] of lines 17 and 48 cannot be built from a message, so
    neither validator ever raises a validation error. *)
Theorem validators_reject_exactly_overlong (v : string) :
  (is_type_error (TweetV1.text_replace v) <-> 140 < PyStr.len v) /\
  (is_type_error (TweetV1.description_replace v) <-> 80 < PyStr.len v) /\
  (PyStr.len v = 140 -> TweetV1.text_replace v = Ok (normalized v)) /\
  (PyStr.len v = 80 -> TweetV1.description_replace v = Ok (normalized v)) /\
  (forall e, TweetV1.text_replace v = Raise e -> exists msg, e = TypeError msg) /\
  (forall e, TweetV1.description_replace v = Raise e -> exists msg, e = TypeError msg) /\
  ~ is_validation_error (TweetV1.text_replace v) /\
  ~ is_validation_error (TweetV1.description_replace v).
Proof.
  unfold TweetV1.text_replace, TweetV1.description_replace.
  destruct (Nat.ltb_spec 140 (PyStr.len v)) as [Ht|Ht];
    destruct (Nat.ltb_spec 80 (PyStr.len v)) as [Hd|Hd]; simpl;
    repeat split; try tauto; try lia; try discriminate;
    try (intros e [= <-]; eauto); intros; lia.
Qed.

Lemma validators_reject_exactly_overlong_witness :
  TweetV1.text_replace (PyStr.repeat "x"%char 140)
  = Ok (normalized (PyStr.repeat "x"%char 140)) /\
  is_type_error (TweetV1.text_replace Sample.overlong).
Proof.
  split.
  - apply (validators_reject_exactly_overlong (PyStr.repeat "x"%char 140)).
    reflexivity.
  - apply (validators_reject_exactly_overlong Sample.overlong).
    vm_compute. lia.
Defined.

(** X2.  What a validator returns passes the same validator unchanged: the
    result has the length of the input, holds no newline, and validating it
    again returns it as it is. *)
Theorem validators_stable (v v' : string) :
  (TweetV1.text_replace v = Ok v' ->
   TweetV1.text_replace v' = Ok v' /\ PyStr.len v' = PyStr.len v /\
   PyStr.contains PyStr.newline v' = false) /\
  (TweetV1.description_replace v = Ok v' ->
   TweetV1.description_replace v' = Ok v' /\ PyStr.len v' = PyStr.len v /\
   PyStr.contains PyStr.newline v' = false).
Proof.
  assert (forall u, PyStr.contains PyStr.newline (normalized u) = false) as Hclean
    by (intros u; apply replace_removes, newline_neq_space).
  assert (forall u, normalized (normalized u) = normalized u) as Hidem
    by (intros u; apply replace_id, Hclean).
  split; intros H.
  - unfold TweetV1.text_replace in H.
    destruct (Nat.ltb_spec 140 (PyStr.len v)) as [Hl|Hl]; [discriminate|].
    injection H as <-. fold (normalized v).
    split; [|split; [apply replace_len | apply Hclean]].
    rewrite text_replace_short, Hidem; [reflexivity|].
    unfold normalized. now rewrite replace_len.
  - unfold TweetV1.description_replace in H.
    destruct (Nat.ltb_spec 80 (PyStr.len v)) as [Hl|Hl]; [discriminate|].
    injection H as <-. fold (normalized v).
    split; [|split; [apply replace_len | apply Hclean]].
    rewrite description_replace_short, Hidem; [reflexivity|].
    unfold normalized. now rewrite replace_len.
Qed.

Lemma validators_stable_witness :
  TweetV1.text_replace "a b" = Ok "a b" /\
  TweetV1.description_replace "a b" = Ok "a b".
Proof.
  split.
  - apply (proj1 (validators_stable two_lines "a b")). reflexivity.
  - apply (proj2 (validators_stable two_lines "a b")). reflexivity.
Defined.

(** X3.  A validator returns its input unchanged exactly when the input is
    within the limit and has no newline. *)
Theorem validators_fixpoints (v : string) :
  (TweetV1.text_replace v = Ok v
   <-> PyStr.len v <= 140 /\ PyStr.contains PyStr.newline v = false) /\
  (TweetV1.description_replace v = Ok v
   <-> PyStr.len v <= 80 /\ PyStr.contains PyStr.newline v = false).
Proof.
  assert (normalized v = v <-> PyStr.contains PyStr.newline v = false) as Hfix.
  { split; [|apply replace_id].
    intros Heq. destruct (PyStr.contains PyStr.newline v) eqn:Hc; [|reflexivity].
    now destruct (replace_changes _ _ v newline_neq_space Hc). }
  unfold TweetV1.text_replace, TweetV1.description_replace.
  fold (normalized v).
  destruct (Nat.ltb_spec 140 (PyStr.len v)) as [Ht|Ht];
    destruct (Nat.ltb_spec 80 (PyStr.len v)) as [Hd|Hd];
    (split; (split; [intros H | intros [Hl Hc]]));
    try discriminate; try lia;
    try (injection H as H; split; [lia | now apply Hfix]);
    try (f_equal; now apply Hfix).
Qed.

Lemma validators_fixpoints_witness :
  TweetV1.text_replace "hello" = Ok "hello" /\
  PyStr.contains PyStr.newline "hello" = false.
Proof.
  split.
  - apply (validators_fixpoints "hello"). split; [vm_compute; lia | reflexivity].
  - apply (validators_fixpoints "hello"). reflexivity.
Defined.

(** X4.  The two validators differ by their limit only: whatever
    [User.description_replace] accepts, [Tweet.text_replace] accepts with the
    same result. *)
Theorem description_accepted_is_text_accepted (v v' : string) :
  TweetV1.description_replace v = Ok v' -> TweetV1.text_replace v = Ok v'.
Proof.
  unfold TweetV1.description_replace. intros H.
  destruct (Nat.ltb_spec 80 (PyStr.len v)) as [Hl|Hl]; [discriminate|].
  injection H as <-. apply text_replace_short. lia.
Qed.

Lemma description_accepted_is_text_accepted_witness :
  TweetV1.text_replace two_lines = Ok "a b".
Proof.
  apply (description_accepted_is_text_accepted two_lines "a b"). reflexivity.
Defined.

(* ===================================================================== *)
(** * Further properties of the setters *)
(* ===================================================================== *)

Section SetterFacts.

Context (Σ : schemas).

Lemma store_attr_lookup self name v (h : heap) o :
  h !! self = Some o ->
  store_attr self name v h !! self
  = Some (Instance (inst_class o) (<[name := v]> (inst_dict o))).
Proof. intros Ho. unfold store_attr. now rewrite Ho, lookup_insert_eq. Qed.

Lemma store_attr_lookup_ne self name v (h : heap) a :
  a <> self -> store_attr self name v h !! a = h !! a.
Proof.
  intros Ha. unfold store_attr. destruct (h !! self); [|reflexivity].
  now apply lookup_insert_ne.
Qed.

Lemma store_attr_twice self name v w (h : heap) :
  store_attr self name w (store_attr self name v h) = store_attr self name w h.
Proof.
  destruct (h !! self) as [o|] eqn:Ho.
  - unfold store_attr at 1. rewrite (store_attr_lookup self name v h o Ho). simpl.
    unfold store_attr. rewrite Ho, insert_insert_eq. now rewrite insert_insert_eq.
  - unfold store_attr. now rewrite Ho, Ho.
Qed.

Lemma store_attr_comm a f v b g w (h : heap) :
  a <> b \/ f <> g ->
  store_attr a f v (store_attr b g w h) = store_attr b g w (store_attr a f v h).
Proof.
  intros Hne. destruct (decide (a = b)) as [->|Hab].
  - destruct Hne as [?|Hfg]; [done|].
    destruct (h !! b) as [o|] eqn:Ho.
    + unfold store_attr at 1 3.
      rewrite (store_attr_lookup b g w h o Ho), (store_attr_lookup b f v h o Ho). simpl.
      unfold store_attr. rewrite Ho, !insert_insert_eq.
      now rewrite (insert_insert_ne (inst_dict o) f g).
    + unfold store_attr. now rewrite !Ho.
  - unfold store_attr at 1 3.
    rewrite (store_attr_lookup_ne b g w h a Hab).
    rewrite (store_attr_lookup_ne a f v h b) by done.
    unfold store_attr.
    destruct (h !! a) as [oa|], (h !! b) as [ob|]; try reflexivity.
    now apply insert_insert_ne.
Qed.

Lemma wrapper_ok_inv f body self v (h : heap) r h' :
  GenericFluentBuilder.fluent_setter Σ f body self v h = (Ok r, h') ->
  exists o v',
    h !! self = Some o /\ assignment Σ (inst_class o) f v = Ok v' /\
    r = VRef self /\ h' = store_attr self f v' h.
Proof.
  intros Hw.
  destruct (wrapper_cases Σ f body self v h) as [(o & v' & Ho & Ha & Hok)|[e He]];
    [|congruence].
  rewrite Hok in Hw. injection Hw as <- <-. exists o, v'. auto.
Qed.

Lemma wrapper_ok_intro f body self v (h : heap) o v' :
  h !! self = Some o ->
  assignment Σ (inst_class o) f v = Ok v' ->
  GenericFluentBuilder.fluent_setter Σ f body self v h
  = (Ok (VRef self), store_attr self f v' h).
Proof.
  intros Ho Ha. rewrite wrapper_unfold. unfold setattr. now rewrite Ho, Ha.
Qed.

Lemma wrapper_raise_intro f body self v (h : heap) o e :
  h !! self = Some o ->
  assignment Σ (inst_class o) f v = Raise e ->
  GenericFluentBuilder.fluent_setter Σ f body self v h = (Raise e, h).
Proof.
  intros Ho Ha. rewrite wrapper_unfold. unfold setattr. now rewrite Ho, Ha.
Qed.

Lemma store_attr_same_class self name v (h : heap) a o :
  h !! a = Some o ->
  exists o', store_attr self name v h !! a = Some o' /\ inst_class o' = inst_class o.
Proof.
  intros Ho. pose proof (store_attr_class self name v h a) as Hc.
  rewrite Ho in Hc. destruct (store_attr self name v h !! a) as [o'|]; [|discriminate].
  exists o'. split; [reflexivity|]. simpl in Hc. congruence.
Qed.

End SetterFacts.

(** X5.  The lambda that line 36 hands to the decorator behaves, on every
    call, as the wrapper that replaces it: [setattr] returns [None], so
    [setattr(...) or self] is [self], and an error of the assignment passes
    through both. *)
Theorem lambda_is_wrapper (Σ : schemas) field body self v (h : heap) :
  GenericFluentBuilder.setter_lambda Σ field self v h
  = GenericFluentBuilder.fluent_setter Σ field body self v h.
Proof.
  unfold GenericFluentBuilder.setter_lambda, GenericFluentBuilder.fluent_setter, bind.
  destruct (setattr_cases Σ self field v h) as [(o & v' & _ & _ & ->)|[e ->]];
    reflexivity.
Qed.

(** X6.  The last write wins: when a setter call for [f] has succeeded, a
    second call for [f] on the same instance gives what it would have given
    without the first, result and store. *)
Theorem setter_overwrites (Σ : schemas) f body1 body2 self v w (h h1 h2 : heap) r1 r2 :
  FluentSetter.fluent_setter Σ f body1 self v h = (Ok r1, h1) ->
  FluentSetter.fluent_setter Σ f body2 self w h = (Ok r2, h2) ->
  FluentSetter.fluent_setter Σ f body2 self w h1 = (Ok r2, h2).
Proof.
  rewrite fluent_setter_same. intros H1 H2.
  apply wrapper_ok_inv in H1 as (o & v' & Ho & Hv & -> & ->).
  apply wrapper_ok_inv in H2 as (o2 & w' & Ho2 & Hw & -> & ->).
  rewrite Ho in Ho2. injection Ho2 as <-.
  rewrite (wrapper_ok_intro Σ f body2 self w _ _ w' (store_attr_lookup self f v' h o Ho) Hw).
  now rewrite store_attr_twice.
Qed.

Lemma setter_overwrites_witness :
  FluentSetter.fluent_setter Sample.declared "text" Sample.stub 0 (VStr "two")
    (FluentSetter.fluent_setter Sample.declared "text" Sample.stub 0 (VStr "one")
       Sample.store).2
  = FluentSetter.fluent_setter Sample.declared "text" Sample.stub 0 (VStr "two") Sample.store.
Proof.
  apply (setter_overwrites Sample.declared "text" Sample.stub Sample.stub 0
           (VStr "one") (VStr "two") Sample.store _ _ (VRef 0) (VRef 0));
    reflexivity.
Defined.

(** X7.  Setter calls on different targets commute: two successful calls
    that set different fields, or fields of different instances, succeed in
    the other order as well and leave the same store. *)
Theorem setters_commute
    (Σ : schemas) f g body1 body2 a b v w (h h1 h2 : heap) r1 r2 :
  a <> b \/ f <> g ->
  FluentSetter.fluent_setter Σ f body1 a v h = (Ok r1, h1) ->
  FluentSetter.fluent_setter Σ g body2 b w h1 = (Ok r2, h2) ->
  exists h1',
    FluentSetter.fluent_setter Σ g body2 b w h = (Ok (VRef b), h1') /\
    FluentSetter.fluent_setter Σ f body1 a v h1' = (Ok (VRef a), h2).
Proof.
  rewrite fluent_setter_same. intros Hne H1 H2.
  apply wrapper_ok_inv in H1 as (oa & v' & Ha & Hv & -> & ->).
  apply wrapper_ok_inv in H2 as (ob' & w' & Hb' & Hw & -> & ->).
  assert (exists ob, h !! b = Some ob /\ inst_class ob = inst_class ob') as (ob & Hb & Hcls).
  { pose proof (store_attr_class a f v' h b) as Hc. rewrite Hb' in Hc.
    destruct (h !! b) as [ob|]; [|discriminate].
    exists ob. split; [reflexivity|]. simpl in Hc. congruence. }
  rewrite <- Hcls in Hw.
  exists (store_attr b g w' h). split; [now apply (wrapper_ok_intro Σ g body2 b w h ob)|].
  destruct (store_attr_same_class b g w' h a oa Ha) as (oa' & Ha' & Hcls').
  rewrite <- Hcls' in Hv.
  rewrite (wrapper_ok_intro Σ f body1 a v _ oa' v' Ha' Hv).
  now rewrite store_attr_comm.
Qed.

Lemma setters_commute_witness :
  exists h1',
    FluentSetter.fluent_setter Sample.declared "id_str" Sample.stub 0 (VStr "9") Sample.store
    = (Ok (VRef 0), h1') /\
    FluentSetter.fluent_setter Sample.declared "text" Sample.stub 0 (VStr "hi") h1'
    = FluentSetter.fluent_setter Sample.declared "id_str" Sample.stub 0 (VStr "9")
        (FluentSetter.fluent_setter Sample.declared "text" Sample.stub 0 (VStr "hi")
           Sample.store).2.
Proof.
  edestruct (setters_commute Sample.declared "text" "id_str" Sample.stub Sample.stub 0 0
               (VStr "hi") (VStr "9") Sample.store)
    as (h1' & Hg & Hf); [right; discriminate | reflexivity | reflexivity |].
  exists h1'. split; [exact Hg | exact Hf].
Defined.

(** X8.  A chain of fluent setter calls that runs to its end returns the
    instance it started from, whatever the number of calls; no object changes
    its class and no other object changes at all. *)
Theorem chain_returns_start
    (Σ : schemas) (ct : classtable) self calls :
  forall (h : heap) o r h',
    h !! self = Some o ->
    Forall (fluent_call Σ ct (inst_class o)) calls ->
    chain ct (VRef self) calls h = (Ok r, h') ->
    r = VRef self /\
    (forall a, inst_class <$> h' !! a = inst_class <$> h !! a) /\
    (forall a g, a <> self -> getattr h' a g = getattr h a g).
Proof.
  induction calls as [|[name v] calls IH]; intros h o r h' Ho Hcalls Hrun.
  - injection Hrun as <- <-. auto.
  - apply Forall_cons in Hcalls as [(f & body & Hm) Hrest]. simpl in Hm.
    simpl in Hrun. unfold bind in Hrun.
    destruct (call_method ct self name v h) as [[r1|e] h1] eqn:Hcall; [|discriminate].
    unfold call_method in Hcall. rewrite Ho in Hcall.
    destruct (inst_dict o !! name); [discriminate|].
    rewrite Hm in Hcall.
    apply wrapper_ok_inv in Hcall as (o' & v' & Ho' & _ & -> & ->).
    destruct (store_attr_same_class self f v' h self o Ho) as (o1 & Ho1 & Hcls).
    rewrite <- Hcls in Hrest.
    destruct (IH _ o1 r h' Ho1 Hrest Hrun) as (Hr & Hclass & Hframe).
    split; [exact Hr|]. split.
    + intros a. rewrite Hclass. apply store_attr_class.
    + intros a g Ha. rewrite Hframe by done. apply getattr_store_attr_ne. now left.
Qed.

Lemma chain_returns_start_witness :
  let out :=
    chain (generated Sample.declared "Tweet" Sample.bare) (VRef 0)
      [("with_created_at", VStr "now"); ("with_text", VStr "hi"); ("with_text", VStr "ho")]
      Sample.store in
  out.1 = Ok (VRef 0) /\
  (forall a g, a <> 0 -> getattr out.2 a g = getattr Sample.store a g).
Proof.
  intros out. split; [reflexivity|].
  apply (chain_returns_start Sample.declared
           (generated Sample.declared "Tweet" Sample.bare) 0
           [("with_created_at", VStr "now"); ("with_text", VStr "hi");
            ("with_text", VStr "ho")]
           Sample.store Sample.tweet (VRef 0) out.2 eq_refl).
  - repeat apply Forall_cons_2; [| | |apply Forall_nil_2].
    + exists "created_at", (GenericFluentBuilder.setter_lambda Sample.declared "created_at").
      reflexivity.
    + exists "text", (GenericFluentBuilder.setter_lambda Sample.declared "text").
      reflexivity.
    + exists "text", (GenericFluentBuilder.setter_lambda Sample.declared "text").
      reflexivity.
  - subst out. vm_compute. reflexivity.
Defined.

(** X9.  On a record type that validates on assignment with
    [Tweet.text_replace] on its [text] field, the setter of [text] accepts
    every text of at most 140 characters, returns the instance and stores the
    text with its newlines replaced by spaces. *)
Theorem validating_text_setter_accepts
    (Σ : schemas) body self o sc s (h : heap) :
  h !! self = Some o ->
  Σ !! inst_class o = Some sc ->
  sch_validate_assignment sc = true ->
  "text" ∈ sch_fields sc ->
  sch_validators sc !! "text" = Some (str_validator TweetV1.text_replace) ->
  PyStr.len s <= 140 ->
  FluentSetter.fluent_setter Σ "text" body self (VStr s) h
  = (Ok (VRef self), store_attr self "text" (VStr (normalized s)) h) /\
  getattr (store_attr self "text" (VStr (normalized s)) h) self "text"
  = Some (VStr (normalized s)).
Proof.
  intros Ho Hsc Hva Hf Hv Hlen. split.
  - rewrite fluent_setter_same. apply (wrapper_ok_intro Σ _ body self _ h o); [exact Ho|].
    unfold assignment. rewrite Hsc, bool_decide_eq_true_2 by done.
    unfold validate_field. rewrite Hva, Hv. simpl.
    now rewrite text_replace_short.
  - now apply (getattr_store_attr_eq self "text" _ h o).
Qed.

Lemma validating_text_setter_accepts_witness :
  getattr (FluentSetter.fluent_setter Sample.strict "text" Sample.stub 0
             (VStr two_lines) Sample.store).2 0 "text"
  = Some (VStr "a b").
Proof.
  destruct (validating_text_setter_accepts Sample.strict Sample.stub 0 Sample.tweet
              (TweetModels.validating TweetModels.Tweet_schema) two_lines Sample.store
              eq_refl eq_refl eq_refl) as [Hrun Hget].
  - apply (bool_decide_unpack _). vm_compute. exact I.
  - reflexivity.
  - vm_compute. lia.
  - rewrite Hrun. exact Hget.
Defined.

(** X10.  On a record type that validates on assignment with
    [User.description_replace] on its [description] field, the setter of
    [description] raises for a description of more than 80 characters, the
    [TypeError] of the validator's raise statement and not a validation
    error, and leaves the store untouched; otherwise it returns the instance
    and stores the description with newlines replaced by spaces. *)
Theorem validating_description_setter
    (Σ : schemas) body self o sc s (h : heap) :
  h !! self = Some o ->
  Σ !! inst_class o = Some sc ->
  sch_validate_assignment sc = true ->
  "description" ∈ sch_fields sc ->
  sch_validators sc !! "description" = Some (str_validator TweetV1.description_replace) ->
  (80 < PyStr.len s ->
   exists msg,
     FluentSetter.fluent_setter Σ "description" body self (VStr s) h
     = (Raise (TypeError msg), h)) /\
  (PyStr.len s <= 80 ->
   FluentSetter.fluent_setter Σ "description" body self (VStr s) h
   = (Ok (VRef self), store_attr self "description" (VStr (normalized s)) h)).
Proof.
  intros Ho Hsc Hva Hf Hv.
  assert (assignment Σ (inst_class o) "description" (VStr s)
          = str_validator TweetV1.description_replace (VStr s)) as Ha.
  { unfold assignment. rewrite Hsc, bool_decide_eq_true_2 by done.
    unfold validate_field. now rewrite Hva, Hv. }
  rewrite fluent_setter_same.
  simpl in Ha. unfold TweetV1.description_replace in Ha.
  split; intros Hlen.
  - destruct (Nat.ltb_spec 80 (PyStr.len s)) as [_|?]; [|lia].
    eexists. apply (wrapper_raise_intro Σ _ body self _ h o _ Ho). exact Ha.
  - destruct (Nat.ltb_spec 80 (PyStr.len s)) as [?|_]; [lia|].
    now apply (wrapper_ok_intro Σ _ body self _ h o).
Qed.

Lemma validating_description_setter_witness :
  exists msg,
    FluentSetter.fluent_setter Sample.strict_users "description" Sample.stub 1
      (VStr (PyStr.repeat "d"%char 81)) Sample.users
    = (Raise (TypeError msg), Sample.users).
Proof.
  apply (validating_description_setter Sample.strict_users Sample.stub 1 Sample.user
           (TweetModels.validating TweetModels.User_schema) (PyStr.repeat "d"%char 81)
           Sample.users eq_refl eq_refl eq_refl).
  - apply (bool_decide_unpack _). vm_compute. exact I.
  - reflexivity.
  - vm_compute. lia.
Defined.

(* ===================================================================== *)
(** * Further properties of generation *)
(* ===================================================================== *)

Section GenerationFacts.

Context (Σ : schemas).

Import GenericFluentBuilder.

(** Lookup along the MRO reads the namespaces only. *)
Lemma find_attr_dicts (ct1 ct2 : classtable) ks name :
  (forall k, cls_dict <$> ct1 !! k = cls_dict <$> ct2 !! k) ->
  find_attr ct1 ks name = find_attr ct2 ks name.
Proof.
  intros Hd. induction ks as [|k ks IH]; simpl; [reflexivity|].
  specialize (Hd k).
  destruct (ct1 !! k) as [cl1|], (ct2 !! k) as [cl2|]; simpl in Hd; try discriminate.
  - injection Hd as ->. now rewrite IH.
  - exact IH.
Qed.

Lemma class_getattr_dicts (ct1 ct2 : classtable) c name :
  (forall k, cls_dict <$> ct1 !! k = cls_dict <$> ct2 !! k) ->
  cls_mro <$> ct1 !! c = cls_mro <$> ct2 !! c ->
  class_getattr ct1 c name = class_getattr ct2 c name.
Proof.
  intros Hd Hm. unfold class_getattr.
  destruct (ct1 !! c) as [cl1|], (ct2 !! c) as [cl2|]; simpl in Hm; try discriminate.
  - injection Hm as ->. now apply find_attr_dicts.
  - reflexivity.
Qed.

Lemma find_attr_insert_notin (ct : classtable) c cl ks name :
  c ∉ ks -> find_attr (<[c := cl]> ct) ks name = find_attr ct ks name.
Proof.
  induction ks as [|k ks IH]; intros Hc; simpl; [reflexivity|].
  apply not_elem_of_cons in Hc as [Hk Hks].
  rewrite lookup_insert_ne by done. now rewrite IH.
Qed.

Lemma find_attr_new (ct : classtable) p pl (d' : gmap string attr) ks name a :
  ct !! p = Some pl ->
  d' !! name = Some a ->
  p ∈ ks ->
  find_attr ct ks name = None ->
  find_attr (<[p := with_dict pl d']> ct) ks name = Some a.
Proof.
  intros Hp Hd. induction ks as [|k ks IH]; intros Hin Hnone; [now apply elem_of_nil in Hin|].
  simpl. destruct (decide (k = p)) as [->|Hk].
  - rewrite lookup_insert_eq. simpl. now rewrite Hd.
  - rewrite lookup_insert_ne by done. simpl in Hnone.
    apply elem_of_cons in Hin as [->|Hin]; [done|].
    destruct (ct !! k) as [cl|].
    + destruct (cls_dict cl !! name); [discriminate | now apply IH].
    + now apply IH.
Qed.

(** The table after the run, with the namespace it gives the class. *)
Lemma generated_at (ct : classtable) c cl :
  ct !! c = Some cl ->
  exists d',
    generated Σ c ct = <[c := with_dict cl d']> ct /\
    forall name,
      d' !! name = if hasattr ct c name then cls_dict cl !! name
                   else synthesized Σ (cls_annotations cl).*1 name.
Proof.
  intros Hc. destruct (generate_spec Σ ct c cl Hc) as (d' & Hrun & Hd').
  exists d'. split; [|exact Hd']. unfold generated. now rewrite Hrun.
Qed.

Lemma synthesized_same_fields fields1 fields2 name :
  (forall f, f ∈ fields1 <-> f ∈ fields2) ->
  synthesized Σ fields1 name = synthesized Σ fields2 name.
Proof.
  intros Hsame.
  destruct (synthesized Σ fields1 name) as [a|] eqn:E1.
  - apply synthesized_inv in E1 as (f & Hf & -> & ->).
    symmetry. apply synthesized_Some. now apply Hsame.
  - symmetry. apply synthesized_None. intros f Hf Hn.
    apply Hsame in Hf. rewrite <- Hn, (synthesized_Some Σ fields1 f Hf) in E1.
    discriminate.
Qed.

End GenerationFacts.

(** X11.  For a class of the table the run never raises and only adds to
    the class's own namespace: the class keeps its MRO and its annotations,
    every entry it had is still there, no other class changes, and each new
    entry is the generated setter of a declared field under that field's
    method name. *)
Theorem generation_extends (Σ : schemas) (ct : classtable) c cl :
  ct !! c = Some cl ->
  exists d',
    GenericFluentBuilder.generate_fluent_setters Σ c ct
    = (Ok VNone, <[c := PyClass (cls_mro cl) (cls_annotations cl) d']> ct) /\
    cls_dict cl ⊆ d' /\
    forall name a,
      d' !! name = Some a ->
      cls_dict cl !! name = Some a \/
      exists f, f ∈ (cls_annotations cl).*1 /\
                name = GenericFluentBuilder.method_name f /\
                a = generated_setter Σ f.
Proof.
  intros Hc. destruct (generate_spec Σ ct c cl Hc) as (d' & Hrun & Hd').
  exists d'. split; [exact Hrun|]. split.
  - apply map_subseteq_spec. intros name a Ha.
    rewrite Hd'. unfold hasattr.
    now rewrite (class_getattr_own ct c cl name a Hc Ha).
  - intros name a Ha. rewrite Hd' in Ha.
    destruct (hasattr ct c name); [now left|].
    right. now apply synthesized_inv in Ha.
Qed.

Lemma generation_extends_witness :
  exists d',
    GenericFluentBuilder.generate_fluent_setters Sample.declared "Tweet" Sample.bare
    = (Ok VNone, <[ "Tweet" := Sample.Tweet d' ]> Sample.bare) /\
    d' !! "with_id_str" = Some (ClassAttr VNone).
Proof.
  destruct (generation_extends Sample.declared Sample.bare "Tweet"
              (Sample.Tweet {[ "with_id_str" := ClassAttr VNone ]}) eq_refl)
    as (d' & Hrun & Hsub & _).
  exists d'. split; [exact Hrun|].
  apply (lookup_weaken _ _ _ _ (lookup_singleton_eq _ _) Hsub).
Defined.

(** X12.  A name that is not the method name of a declared field without
    method resolves after the run as it did before, on every class of the
    table, subclasses included; a call under such a name on any instance
    gives the same result. *)
Theorem generation_frame (Σ : schemas) (ct : classtable) c cl name :
  ct !! c = Some cl ->
  (forall f, f ∈ missing ct c (cls_annotations cl).*1 ->
             GenericFluentBuilder.method_name f <> name) ->
  (forall k, class_getattr (generated Σ c ct) k name = class_getattr ct k name) /\
  (forall self v (h : heap),
      call_method (generated Σ c ct) self name v h = call_method ct self name v h).
Proof.
  intros Hc Hname.
  destruct (generated_at Σ ct c cl Hc) as (d' & -> & Hd').
  assert (forall k, class_getattr (<[c := with_dict cl d']> ct) k name
                    = class_getattr ct k name) as Hkeep.
  { intros k. apply class_getattr_update; [exact Hc|].
    rewrite Hd'. destruct (hasattr ct c name) eqn:Hh; [reflexivity|].
    rewrite (hasattr_own ct c cl name Hc Hh).
    apply synthesized_None. intros f Hf Hn. apply (Hname f); [|exact Hn].
    apply elem_of_missing. split; [exact Hf | now rewrite Hn]. }
  split; [exact Hkeep|].
  intros self v h. unfold call_method.
  destruct (h !! self) as [o|]; [|reflexivity].
  now rewrite Hkeep.
Qed.

Lemma generation_frame_witness :
  call_method (generated Sample.declared "Tweet" (Sample.handwritten Sample.declared))
    0 "with_text" (VStr "hi") Sample.store
  = call_method (Sample.handwritten Sample.declared) 0 "with_text" (VStr "hi") Sample.store.
Proof.
  apply (generation_frame Sample.declared (Sample.handwritten Sample.declared) "Tweet"
           (Sample.Tweet {[ "with_text" := Method (Sample.shout Sample.declared) ]})
           "with_text" eq_refl).
  intros f Hf. apply elem_of_missing in Hf as [_ Hh]. intros Hn.
  rewrite Hn in Hh. discriminate Hh.
Defined.

(** X13.  The order in which a class declares its fields does not matter:
    two declarations of the class that differ by a permutation of the
    annotations get the same namespace from the run, and every name resolves
    alike on every class afterwards. *)
Theorem generation_order_independent
    (Σ : schemas) (ct : classtable) c mro ann1 ann2 (d : gmap string attr) :
  ann1.*1 ≡ₚ ann2.*1 ->
  let ct1 := generated Σ c (<[c := PyClass mro ann1 d]> ct) in
  let ct2 := generated Σ c (<[c := PyClass mro ann2 d]> ct) in
  own_dict ct1 c = own_dict ct2 c /\
  (forall k name, class_getattr ct1 k name = class_getattr ct2 k name).
Proof.
  intros Hperm ct1 ct2. subst ct1 ct2.
  destruct (generated_at Σ (<[c := PyClass mro ann1 d]> ct) c _ (lookup_insert_eq _ _ _))
    as (d1 & -> & Hd1).
  destruct (generated_at Σ (<[c := PyClass mro ann2 d]> ct) c _ (lookup_insert_eq _ _ _))
    as (d2 & -> & Hd2).
  simpl in Hd1, Hd2.
  assert (forall (e1 e2 : gmap string attr) a1 a2 k,
             cls_dict <$> <[c := PyClass mro a1 e1]> ct !! k
             = cls_dict <$> <[c := PyClass mro a2 e1]> ct !! k) as Hdicts.
  { intros e1 e2 a1 a2 k. destruct (decide (k = c)) as [->|Hk].
    - now rewrite !lookup_insert_eq.
    - now rewrite !lookup_insert_ne. }
  assert (forall (e1 : gmap string attr) a1 a2 k,
             cls_mro <$> <[c := PyClass mro a1 e1]> ct !! k
             = cls_mro <$> <[c := PyClass mro a2 e1]> ct !! k) as Hmros.
  { intros e1 a1 a2 k. destruct (decide (k = c)) as [->|Hk].
    - now rewrite !lookup_insert_eq.
    - now rewrite !lookup_insert_ne. }
  assert (d1 = d2) as <-.
  { apply map_eq. intros name. rewrite Hd1, Hd2.
    unfold hasattr.
    rewrite (class_getattr_dicts _ (<[c := PyClass mro ann2 d]> ct) c name
               (Hdicts d d ann1 ann2) (Hmros d ann1 ann2 c)).
    destruct (class_getattr _ c name); [reflexivity|].
    apply synthesized_same_fields. intros f. now rewrite Hperm. }
  unfold with_dict. simpl. rewrite !insert_insert_eq.
  split.
  - unfold own_dict. now rewrite !lookup_insert_eq.
  - intros k name. apply class_getattr_dicts; [apply (Hdicts d1 d1) | apply Hmros].
Qed.

Lemma generation_order_independent_witness :
  own_dict (generated Sample.declared "P"
              (<["P" := PyClass Sample.bases [("a", "int"); ("b", "str")] ∅]> ∅)) "P"
  = own_dict (generated Sample.declared "P"
                (<["P" := PyClass Sample.bases [("b", "str"); ("a", "int")] ∅]> ∅)) "P".
Proof.
  apply (generation_order_independent Sample.declared ∅ "P" Sample.bases
           [("a", "int"); ("b", "str")] [("b", "str"); ("a", "int")] ∅).
  simpl. apply Permutation_swap.
Defined.

(** X14.  Runs on two classes neither of which is the other or an ancestor
    of the other commute: both orders leave the same class table. *)
Theorem generation_commutes (Σ : schemas) (ct : classtable) c1 c2 cl1 cl2 :
  ct !! c1 = Some cl1 ->
  ct !! c2 = Some cl2 ->
  c1 <> c2 ->
  c1 ∉ cls_mro cl2 ->
  c2 ∉ cls_mro cl1 ->
  generated Σ c1 (generated Σ c2 ct) = generated Σ c2 (generated Σ c1 ct).
Proof.
  intros H1 H2 Hne H12 H21.
  destruct (generated_at Σ ct c1 cl1 H1) as (d1 & E1 & Hd1).
  destruct (generated_at Σ ct c2 cl2 H2) as (d2 & E2 & Hd2).
  rewrite E1, E2.
  assert (forall (ct0 : classtable) a b cla clb (db : gmap string attr) name,
             ct0 !! a = Some cla -> a <> b -> b ∉ cls_mro cla ->
             hasattr (<[b := with_dict clb db]> ct0) a name = hasattr ct0 a name) as Hsame.
  { intros ct0 a b cla clb db name Ha Hab Hb. unfold hasattr, class_getattr.
    rewrite lookup_insert_ne, Ha by done.
    rewrite find_attr_insert_notin; [reflexivity|].
    apply not_elem_of_cons. split; [done | exact Hb]. }
  destruct (generated_at Σ (<[c2 := with_dict cl2 d2]> ct) c1 cl1) as (d1' & -> & Hd1');
    [now rewrite lookup_insert_ne|].
  destruct (generated_at Σ (<[c1 := with_dict cl1 d1]> ct) c2 cl2) as (d2' & -> & Hd2');
    [now rewrite lookup_insert_ne|].
  assert (d1' = d1) as ->.
  { apply map_eq. intros name.
    now rewrite Hd1', Hd1, (Hsame ct c1 c2 cl1 cl2 d2 name H1 Hne H21). }
  assert (d2' = d2) as ->.
  { apply map_eq. intros name.
    rewrite Hd2', Hd2, (Hsame ct c2 c1 cl2 cl1 d1 name H2); [reflexivity | done | done]. }
  now apply insert_insert_ne.
Qed.

Lemma generation_commutes_witness :
  let ct : classtable :=
    {[ "Tweet" := Sample.Tweet ∅; "Parent" := Sample.Parent ]} in
  generated Sample.declared "Tweet" (generated Sample.declared "Parent" ct)
  = generated Sample.declared "Parent" (generated Sample.declared "Tweet" ct).
Proof.
  intros ct.
  apply (generation_commutes Sample.declared ct "Tweet" "Parent"
           (Sample.Tweet ∅) Sample.Parent eq_refl eq_refl).
  - discriminate.
  - apply (bool_decide_unpack _). vm_compute. exact I.
  - apply (bool_decide_unpack _). vm_compute. exact I.
Defined.

(** X15.  Setters generated on a class are inherited: where a subclass had
    no attribute of the name [with_f] and the run on an ancestor builds the
    setter of its field [f], the subclass resolves [with_f] to that setter,
    and calling it on an instance of the subclass assigns [f] and returns the
    instance. *)
Theorem generated_setter_inherited
    (Σ : schemas) (ct : classtable) p pl c cl f :
  ct !! p = Some pl ->
  ct !! c = Some cl ->
  p ∈ cls_mro cl ->
  f ∈ (cls_annotations pl).*1 ->
  hasattr ct p (GenericFluentBuilder.method_name f) = false ->
  class_getattr ct c (GenericFluentBuilder.method_name f) = None ->
  class_getattr (generated Σ p ct) c (GenericFluentBuilder.method_name f)
  = Some (generated_setter Σ f) /\
  (forall self o v (h : heap),
      h !! self = Some o -> inst_class o = c ->
      inst_dict o !! GenericFluentBuilder.method_name f = None ->
      call_method (generated Σ p ct) self (GenericFluentBuilder.method_name f) v h
      = match setattr Σ self f v h with
        | (Ok _, h') => (Ok (VRef self), h')
        | (Raise e, h') => (Raise e, h')
        end).
Proof.
  intros Hp Hc Hin Hf Hh Hnone.
  destruct (generated_at Σ ct p pl Hp) as (d' & -> & Hd').
  assert (d' !! GenericFluentBuilder.method_name f = Some (generated_setter Σ f)) as Hnew
    by (rewrite Hd', Hh; now apply synthesized_Some).
  assert (class_getattr (<[p := with_dict pl d']> ct) c (GenericFluentBuilder.method_name f)
          = Some (generated_setter Σ f)) as Hget.
  { unfold class_getattr in *. rewrite Hc in Hnone.
    assert (exists cl', <[p := with_dict pl d']> ct !! c = Some cl'
                        /\ cls_mro cl' = cls_mro cl) as (cl' & -> & ->).
    { destruct (decide (c = p)) as [->|Hcp].
      - rewrite lookup_insert_eq. rewrite Hp in Hc. injection Hc as ->. eauto.
      - rewrite lookup_insert_ne by done. eauto. }
    apply find_attr_new; [exact Hp | exact Hnew | now right | exact Hnone]. }
  split; [exact Hget|].
  intros self o v h Ho Hcls Hd. subst c.
  now rewrite (call_method_found _ self _ v h o _ Ho Hd Hget).
Qed.

Lemma generated_setter_inherited_witness :
  class_getattr (generated Sample.declared "Parent" Sample.family) "Child" "with_a"
  = Some (generated_setter Sample.declared "a").
Proof.
  apply (generated_setter_inherited Sample.declared Sample.family "Parent" Sample.Parent
           "Child" Sample.Child "a" eq_refl eq_refl).
  - apply (bool_decide_unpack _). vm_compute. exact I.
  - apply (bool_decide_unpack _). vm_compute. exact I.
  - reflexivity.
  - reflexivity.
Defined.

(** X16.  Method names do not collide: two fields have the same method name
    only if they are the same field, and the method name of a field is five
    characters longer than the field name, the prefix ["with_"]. *)
Theorem method_names_distinct (f g : string) :
  (GenericFluentBuilder.method_name f = GenericFluentBuilder.method_name g <-> f = g) /\
  PyStr.len (GenericFluentBuilder.method_name f) = 5 + PyStr.len f /\
  String.prefix "with_" (GenericFluentBuilder.method_name f) = true.
Proof.
  split; [split; [apply method_name_inj | now intros ->]|].
  split; [reflexivity | destruct f; reflexivity].
Qed.

Lemma method_names_distinct_witness :
  GenericFluentBuilder.method_name "text" <> GenericFluentBuilder.method_name "user".
Proof.
  intros H. apply (method_names_distinct "text" "user") in H. discriminate H.
Defined.
